(** * twist-configuration: the library loader and the configuration merger

    A shallow embedding of [src/internal/LibraryLoader.js] and
    [src/TwistConfiguration.js].  JavaScript values are a small inductive
    type, the mutable [TwistConfiguration] instance (with the
    [LibraryLoader] it owns) is an explicit state, and every method is a
    computation in a state-and-exception monad: a [throw] keeps the state
    the instance had when the exception left the method, because nothing in
    the source rolls a mutation back. *)

From Stdlib Require Import ZArith Ascii String.
From stdpp Require Import gmap strings list fin_maps pretty.

Set Warnings "-register-all,-clear-no-such-hyp".

(** ** JavaScript values *)

(** Numbers are the integers (documents and options of this program hold
    no fractions); [VNative] is a value of the runtime that is compared by
    identity and has no enumerable properties: a function such as a Babel
    plugin module, or a built-in such as [Object.prototype.toString]. *)
Inductive JsVal : Type :=
| VUndef
| VNull
| VBool (b : bool)
| VNum (n : Z)
| VStr (s : string)
| VNative (id : string)
| VArr (items : list JsVal)
| VObj (props : list (string * JsVal)).

(** Own properties of an object literal, in [Object.keys] order. *)
Fixpoint assoc (k : string) (props : list (string * JsVal)) : option JsVal :=
  match props with
  | [] => None
  | (k', v) :: rest => if String.eqb k k' then Some v else assoc k rest
  end.

(** [obj[k] = v] on the property list: an existing key keeps its place, a
    new key goes last. *)
Fixpoint assoc_set (k : string) (v : JsVal) (props : list (string * JsVal))
  : list (string * JsVal) :=
  match props with
  | [] => [(k, v)]
  | (k', v') :: rest =>
      if String.eqb k k' then (k, v) :: rest else (k', v') :: assoc_set k v rest
  end.

(** ToBoolean. *)
Definition truthy (v : JsVal) : bool :=
  match v with
  | VUndef | VNull => false
  | VBool b => b
  | VNum n => negb (n =? 0)%Z
  | VStr s => negb (String.eqb s "")
  | VNative _ | VArr _ | VObj _ => true
  end.

(** [a || b]. *)
Definition js_or (a b : JsVal) : JsVal := if truthy a then a else b.

(** [a === b].  Primitives compare by value and natives by identity.  An
    object or array literal of a document is a fresh object each time the
    document is evaluated, so it is identical to nothing that was stored
    before. *)
Definition strict_eq (a b : JsVal) : bool :=
  match a, b with
  | VUndef, VUndef | VNull, VNull => true
  | VBool x, VBool y => Bool.eqb x y
  | VNum x, VNum y => (x =? y)%Z
  | VStr x, VStr y => String.eqb x y
  | VNative x, VNative y => String.eqb x y
  | _, _ => false
  end.

(** The properties every plain object inherits from [Object.prototype]. *)
Definition object_prototype (k : string) : JsVal :=
  if bool_decide (k ∈ ["constructor"; "hasOwnProperty"; "isPrototypeOf";
                       "propertyIsEnumerable"; "toLocaleString"; "toString";
                       "valueOf"; "__defineGetter__"; "__defineSetter__";
                       "__lookupGetter__"; "__lookupSetter__"]%string)
  then VNative ("Object.prototype." +:+ k)
  else if String.eqb k "__proto__" then VNative "Object.prototype"
  else VUndef.

Fixpoint join (sep : string) (parts : list string) : string :=
  match parts with
  | [] => ""
  | [p] => p
  | p :: rest => p +:+ sep +:+ join sep rest
  end.

(** ToString, as used by string concatenation and by property keys. *)
Fixpoint js_to_string (v : JsVal) : string :=
  match v with
  | VUndef => "undefined"
  | VNull => "null"
  | VBool true => "true"
  | VBool false => "false"
  | VNum n => pretty n
  | VStr s => s
  | VNative id => id
  | VArr items =>
      join "," (map (fun x => match x with
                              | VUndef | VNull => ""%string
                              | _ => js_to_string x
                              end) items)
  | VObj _ => "[object Object]"
  end.

(** *** JSON.stringify *)

Definition hex_digit (n : N) : ascii :=
  ascii_of_N (if (n <? 10)%N then 48 + n else 87 + n)%N.

Definition json_escape_char (c : ascii) : string :=
  let n := N_of_ascii c in
  if (n =? 34)%N then String "\" (String c "")
  else if (n =? 92)%N then String "\" (String "\" "")
  else if (n =? 8)%N then "\b"
  else if (n =? 9)%N then "\t"
  else if (n =? 10)%N then "\n"
  else if (n =? 12)%N then "\f"
  else if (n =? 13)%N then "\r"
  else if (n <? 32)%N
       then "\u00" +:+ String (hex_digit (n / 16)) (String (hex_digit (n mod 16)) "")
  else String c "".

Fixpoint json_escape (s : string) : string :=
  match s with
  | EmptyString => ""
  | String c rest => json_escape_char c +:+ json_escape rest
  end.

Definition json_quote (s : string) : string :=
  let q := String (ascii_of_N 34) "" in q +:+ json_escape s +:+ q.

(** [JSON.stringify(v)]; [None] is the JavaScript [undefined] it returns for
    [undefined] and for functions.  Inside an array such a value is written
    [null], inside an object the property is left out. *)
Fixpoint JSON_stringify (v : JsVal) : option string :=
  match v with
  | VUndef | VNative _ => None
  | VNull => Some "null"%string
  | VBool true => Some "true"%string
  | VBool false => Some "false"%string
  | VNum n => Some (pretty n)
  | VStr s => Some (json_quote s)
  | VArr items =>
      Some ("[" +:+ join "," (map (fun x => default "null"%string (JSON_stringify x)) items)
                +:+ "]")
  | VObj props =>
      Some ("{" +:+ join "," (omap (fun kv => match JSON_stringify (snd kv) with
                                             | Some t => Some (json_quote (fst kv) +:+ ":" +:+ t)
                                             | None => None
                                             end) props)
                +:+ "}")
  end.

(** ** Errors

    The source throws plain [Error] objects told apart by their message; the
    constructors carry the names the specification gives them.  [TypeError]
    is what the runtime raises on a property access on [null] or
    [undefined] and on a property write to a primitive (class bodies are
    strict code) and on a call of a value that is no function.  [NotModelled]
    marks what the value model cannot hold: a named property written onto
    an array or a native, a property read by a computed key from anything
    but a plain object, and the result of calling a function held in a
    value. *)
Inductive Error : Type :=
| ResolutionError (message : string)
| ManifestParseError
| VersionConflictError (message : string)
| ConfigParseError (message : string)
| UnknownOptionError (message : string)
| TypeError
| NotModelled.

(** The outcome of a call: a normal return, an exception, or a recursion
    that has not ended within the allotted depth. *)
Inductive Res (A : Type) : Type :=
| Ok (a : A)
| Throw (e : Error)
| Diverge.
Arguments Ok {A} a.
Arguments Throw {A} e.
Arguments Diverge {A}.

(** [v.k] for a key the program names in its text ([libraries], [module],
    [export] and the like).  None of these is a property of an array, a
    native or a primitive, so reading one there gives [undefined]. *)
Definition get_prop (v : JsVal) (k : string) : Res JsVal :=
  match v with
  | VUndef | VNull => Throw TypeError
  | VObj props =>
      Ok (match assoc k props with Some x => x | None => object_prototype k end)
  | _ => Ok VUndef
  end.

(** [v[k]] for a key the program computes; the one such read is
    [config.context[this.context]].  A plain object answers as in
    [get_prop]; what an array, a native or a primitive answers depends on
    the key (indices, [length], the methods of their prototypes). *)
Definition get_computed (v : JsVal) (k : string) : Res JsVal :=
  match v with
  | VUndef | VNull | VObj _ => get_prop v k
  | _ => Throw NotModelled
  end.

(** [v[k] = x]; the result is the object after the write. *)
Definition set_prop (v : JsVal) (k : string) (x : JsVal) : Res JsVal :=
  match v with
  | VObj props => Ok (VObj (assoc_set k x props))
  | VArr _ | VNative _ => Throw NotModelled
  | _ => Throw TypeError
  end.

(** ** LibraryInfo *)

(** [undefined] fields are [None].  A manifest's [name] and [version] are
    strings when present. *)
Inductive LibraryInfo : Type := Build_LibraryInfo {
  lib_path : option string;
  lib_options : JsVal;
  parentLibrary : option LibraryInfo;
  lib_name : option string;
  lib_version : option string
}.

Definition spaces (n : nat) : string := String.concat "" (replicate n " "%string).

(** The loop of [getLibraryChainStackTrace]: [stack] is returned in push
    order; [indent] and [isFirstLine] are the loop's variables. *)
Fixpoint chain_lines (parent : LibraryInfo) (indent : nat) (isFirstLine : bool)
  : list string :=
  let line := default "undefined"%string (lib_name parent)
              +:+ match lib_version parent with
                  | Some v => if String.eqb v "" then "" else " " +:+ v
                  | None => ""
                  end in
  let prefix := spaces indent in
  let line := if isFirstLine then line else "└─ loaded by " +:+ line in
  (prefix +:+ line)
    :: match parentLibrary parent with
       | Some p => chain_lines p (indent + 2) false
       | None => []
       end.

Definition newline : string := String (ascii_of_N 10) "".

Definition getLibraryChainStackTrace (this : LibraryInfo) : string :=
  join newline (chain_lines this 4 true).

(** ** The host: module resolution and the files of the libraries *)

Record Manifest : Type := {
  pkg_name : option string;
  pkg_version : option string
}.

(** The file [<dir>/.twistrc]. *)
Inductive TwistrcFile : Type :=
| TwistrcAbsent
| TwistrcInvalid
| TwistrcJson (document : JsVal).

(** The module [<dir>/.twistrc.js], after [library.default || library]:
    either a value or a function of the options, which returns a document
    or throws. *)
Inductive TwistrcModule : Type :=
| ModuleAbsent
| ModuleValue (document : JsVal)
| ModuleFunction (f : JsVal -> Res JsVal).

Record Host : Type := {
  (** [process.cwd()] *)
  cwd : string;
  (** [path.normalize(path.dirname(require.resolve(name + '/package.json')))],
      [None] when [require.resolve] throws *)
  resolveRoot : string -> option string;
  (** [JSON.parse] of [<dir>/package.json], [None] when it throws *)
  packageJson : string -> option Manifest;
  twistrc : string -> TwistrcFile;
  twistrc_js : string -> TwistrcModule;
  (** [require.resolve('./third_party/inherits')] *)
  inherits_shim : string
}.

(** ** The instance state *)

Record LibraryLoader : Type := {
  libraryInfos : list LibraryInfo;
  currentLibrary : LibraryInfo
}.

(** [console_warn] collects the messages given to [console.warn], and
    [mergeConfig_callCount] counts the entries into [mergeConfig] (what a
    spy on the method reports); the other fields are the instance's. *)
Record TwistConfiguration : Type := {
  context : string;
  _options : gmap string JsVal;
  _components : gmap string JsVal;
  _decorators : gmap string JsVal;
  _babelPlugins : list (JsVal * JsVal);
  _pathAliases : gmap string string;
  _libraryLoader : LibraryLoader;
  console_warn : list string;
  mergeConfig_callCount : nat
}.

Definition with_options (f : gmap string JsVal -> gmap string JsVal)
  (c : TwistConfiguration) : TwistConfiguration :=
  {| context := context c; _options := f (_options c); _components := _components c;
     _decorators := _decorators c; _babelPlugins := _babelPlugins c;
     _pathAliases := _pathAliases c; _libraryLoader := _libraryLoader c;
     console_warn := console_warn c; mergeConfig_callCount := mergeConfig_callCount c |}.

Definition with_components (f : gmap string JsVal -> gmap string JsVal)
  (c : TwistConfiguration) : TwistConfiguration :=
  {| context := context c; _options := _options c; _components := f (_components c);
     _decorators := _decorators c; _babelPlugins := _babelPlugins c;
     _pathAliases := _pathAliases c; _libraryLoader := _libraryLoader c;
     console_warn := console_warn c; mergeConfig_callCount := mergeConfig_callCount c |}.

Definition with_decorators (f : gmap string JsVal -> gmap string JsVal)
  (c : TwistConfiguration) : TwistConfiguration :=
  {| context := context c; _options := _options c; _components := _components c;
     _decorators := f (_decorators c); _babelPlugins := _babelPlugins c;
     _pathAliases := _pathAliases c; _libraryLoader := _libraryLoader c;
     console_warn := console_warn c; mergeConfig_callCount := mergeConfig_callCount c |}.

Definition with_babelPlugins (f : list (JsVal * JsVal) -> list (JsVal * JsVal))
  (c : TwistConfiguration) : TwistConfiguration :=
  {| context := context c; _options := _options c; _components := _components c;
     _decorators := _decorators c; _babelPlugins := f (_babelPlugins c);
     _pathAliases := _pathAliases c; _libraryLoader := _libraryLoader c;
     console_warn := console_warn c; mergeConfig_callCount := mergeConfig_callCount c |}.

Definition with_libraryLoader (f : LibraryLoader -> LibraryLoader)
  (c : TwistConfiguration) : TwistConfiguration :=
  {| context := context c; _options := _options c; _components := _components c;
     _decorators := _decorators c; _babelPlugins := _babelPlugins c;
     _pathAliases := _pathAliases c; _libraryLoader := f (_libraryLoader c);
     console_warn := console_warn c; mergeConfig_callCount := mergeConfig_callCount c |}.

Definition with_console_warn (f : list string -> list string)
  (c : TwistConfiguration) : TwistConfiguration :=
  {| context := context c; _options := _options c; _components := _components c;
     _decorators := _decorators c; _babelPlugins := _babelPlugins c;
     _pathAliases := _pathAliases c; _libraryLoader := _libraryLoader c;
     console_warn := f (console_warn c); mergeConfig_callCount := mergeConfig_callCount c |}.

Definition with_callCount (f : nat -> nat)
  (c : TwistConfiguration) : TwistConfiguration :=
  {| context := context c; _options := _options c; _components := _components c;
     _decorators := _decorators c; _babelPlugins := _babelPlugins c;
     _pathAliases := _pathAliases c; _libraryLoader := _libraryLoader c;
     console_warn := console_warn c; mergeConfig_callCount := f (mergeConfig_callCount c) |}.

(** [this.libraryInfos.push(libraryInfo)] and [this.currentLibrary = libraryInfo]
    of the loader. *)
Definition push_library (libraryInfo : LibraryInfo) : TwistConfiguration -> TwistConfiguration :=
  with_libraryLoader (fun l => {| libraryInfos := libraryInfos l ++ [libraryInfo];
                                  currentLibrary := currentLibrary l |}).

Definition enter_library (libraryInfo : LibraryInfo) : TwistConfiguration -> TwistConfiguration :=
  with_libraryLoader (fun l => {| libraryInfos := libraryInfos l;
                                  currentLibrary := libraryInfo |}).

(** ** The monad of method bodies *)

Definition M (A : Type) : Type := TwistConfiguration -> TwistConfiguration * Res A.

Definition ret {A} (a : A) : M A := fun s => (s, Ok a).
Definition throw {A} (e : Error) : M A := fun s => (s, Throw e).
Definition diverge {A} : M A := fun s => (s, Diverge).
Definition bind {A B} (m : M A) (k : A -> M B) : M B :=
  fun s => match m s with
           | (s', Ok a) => k a s'
           | (s', Throw e) => (s', Throw e)
           | (s', Diverge) => (s', Diverge)
           end.
Definition get : M TwistConfiguration := fun s => (s, Ok s).
Definition modify (f : TwistConfiguration -> TwistConfiguration) : M unit :=
  fun s => (f s, Ok tt).
Definition lift {A} (r : Res A) : M A := fun s => (s, r).

Declare Scope js_scope.
Delimit Scope js_scope with js.
Notation "'let!' x ':=' m 'in' k" := (bind m (fun x => k))
  (at level 10, x name, m at level 100, k at level 200) : js_scope.
Notation "m ';;' k" := (bind m (fun _ => k))
  (at level 100, k at level 200, right associativity) : js_scope.
Local Open Scope js_scope.

(** [list.forEach(f)]. *)
Fixpoint forEach {A} (f : A -> M unit) (l : list A) : M unit :=
  match l with
  | [] => ret tt
  | x :: rest => f x ;; forEach f rest
  end.

Definition of_name (n : option string) : JsVal :=
  match n with Some x => VStr x | None => VUndef end.

(** The sentinel the loader starts with: [new LibraryInfo()] with [name] and
    [version] assigned afterwards. *)
Definition rootLibrary : LibraryInfo :=
  {| lib_path := None; lib_options := VUndef; parentLibrary := None;
     lib_name := Some "(root)"%string; lib_version := Some ""%string |}.

(** A parameter declared [options = {}]: only [undefined] takes the default. *)
Definition default_options (options : JsVal) : JsVal :=
  match options with VUndef => VObj [] | _ => options end.

Section Program.

Variable host : Host.

(** ** LibraryLoader *)

(** [new LibraryInfo(libraryPath, options, parentLibrary)]: the manifest is
    read only when [libraryPath] is truthy. *)
Definition newLibraryInfo (libraryPath : option string) (options : JsVal)
  (parent : option LibraryInfo) : Res LibraryInfo :=
  let bare := {| lib_path := libraryPath; lib_options := options; parentLibrary := parent;
                 lib_name := None; lib_version := None |} in
  match libraryPath with
  | Some p =>
      if String.eqb p "" then Ok bare
      else match packageJson host p with
           | Some packageJson =>
               Ok {| lib_path := libraryPath; lib_options := options;
                     parentLibrary := parent;
                     lib_name := pkg_name packageJson;
                     lib_version := pkg_version packageJson |}
           | None => Throw ManifestParseError
           end
  | None => Ok bare
  end.

(** [LibraryLoader.getRootDir(libraryName)] *)
Definition getRootDir (libraryName : JsVal) : Res string :=
  match resolveRoot host (js_to_string libraryName) with
  | Some dir => Ok dir
  | None =>
      Throw (ResolutionError
               ("Failed to resolve " +:+ js_to_string libraryName +:+ " - is it installed?"))
  end.

(** [loadConfigFile(options)]; the result is [undefined] when neither file
    exists. *)
Definition loadConfigFile (options : JsVal) : M JsVal :=
  let! this := get in
  match lib_path (currentLibrary (_libraryLoader this)) with
  | None => throw TypeError
  | Some dir =>
      match twistrc host dir with
      | TwistrcJson document => ret document
      | TwistrcInvalid =>
          throw (ConfigParseError
                   ("Invalid .twistrc file at " +:+ dir +:+ "/.twistrc"
                      +:+ " - please ensure it is valid JSON"))
      | TwistrcAbsent =>
          match twistrc_js host dir with
          | ModuleFunction library => lift (library options)
          | ModuleValue library => ret library
          | ModuleAbsent => ret VUndef
          end
      end
  end.

(** The test of the first [find] of [load]. *)
Definition same_load (libraryPath : string) (options : JsVal) (lib : LibraryInfo) : bool :=
  bool_decide (lib_path lib = Some libraryPath)
  && bool_decide (JSON_stringify (lib_options lib) = JSON_stringify options).

(** The test of the second [find] of [load]. *)
Definition conflicts_with (libraryInfo lib : LibraryInfo) : bool :=
  bool_decide (lib_name lib = lib_name libraryInfo)
  && negb (bool_decide (lib_version lib = lib_version libraryInfo)).

(** The message of the conflict error: the template-literal part, then the
    two traces, each followed by a blank line. *)
Definition conflict_heading (current conflictLib : LibraryInfo) : string :=
  "You're trying to load " +:+ js_to_string (of_name (lib_name current)) +:+ " "
    +:+ js_to_string (of_name (lib_version current)) +:+ ", but "
    +:+ js_to_string (of_name (lib_name conflictLib)) +:+ " "
    +:+ js_to_string (of_name (lib_version conflictLib)) +:+ " was already loaded:"
    +:+ newline +:+ newline.

Definition conflict_message (current conflictLib : LibraryInfo) : string :=
  conflict_heading current conflictLib
    +:+ getLibraryChainStackTrace current
    +:+ newline +:+ newline
    +:+ getLibraryChainStackTrace conflictLib +:+ newline +:+ newline.

(** [load(libraryName, options = {})].  [mergeConfig] is the method of the
    configuration the loader was constructed with. *)
Definition load (mergeConfig : JsVal -> M unit) (libraryName options : JsVal) : M unit :=
  let options := default_options options in
  let! libraryPath := lift (getRootDir libraryName) in
  let! this := get in
  match find (same_load libraryPath options) (libraryInfos (_libraryLoader this)) with
  | Some _ => ret tt
  | None =>
      let! libraryInfo :=
        lift (newLibraryInfo (Some libraryPath) options
                             (Some (currentLibrary (_libraryLoader this)))) in
      modify (push_library libraryInfo) ;;
      modify (enter_library libraryInfo) ;;
      let! this := get in
      match find (conflicts_with libraryInfo) (libraryInfos (_libraryLoader this)) with
      | Some conflictLib =>
          throw (VersionConflictError
                   (conflict_message (currentLibrary (_libraryLoader this)) conflictLib))
      | None =>
          let! libraryConfig := loadConfigFile options in
          (if truthy libraryConfig then mergeConfig libraryConfig
           else modify (with_console_warn (fun w =>
                  w ++ ["Failed to find .twistrc file for " +:+ js_to_string libraryName
                          +:+ " - make sure that it has a configuration in its root"]))) ;;
          modify (enter_library (default libraryInfo (parentLibrary libraryInfo)))
      end
  end.

(** ** TwistConfiguration *)

Definition DEFAULT_OPTIONS : gmap string JsVal :=
  list_to_map [("includeBabelRuntime", VBool false); ("jsxSourceLines", VBool false);
               ("polyfill", VBool true); ("regenerator", VBool false);
               ("targets", VObj [("node", VStr "current")]);
               ("transformImports", VBool true);
               ("useBabelModuleResolver", VBool true)]%string.

(** [_forEachConfig(config, callback)] *)
Definition _forEachConfig (config : JsVal) (callback : JsVal -> JsVal -> M unit) : M unit :=
  match config with
  | VArr entries =>
      forEach (fun entry =>
                 if negb (truthy entry) then ret tt
                 else match entry with
                      | VArr items =>
                          callback (nth 0 items VUndef) (js_or (nth 1 items VUndef) (VObj []))
                      | _ => callback entry (VObj [])
                      end) entries
  | VObj props =>
      forEach (fun key => callback (VStr key) (default VUndef (assoc key props)))
              (map fst props)
  | _ => ret tt
  end.

Definition addLibrary (mergeConfig : JsVal -> M unit) (library options : JsVal) : M unit :=
  load mergeConfig library options.

Definition addBabelPlugin (plugin options : JsVal) : M unit :=
  let! this := get in
  match find (fun item => strict_eq (fst item) plugin) (_babelPlugins this) with
  | Some _ => ret tt
  | None => modify (with_babelPlugins (fun l => l ++ [(plugin, options)]))
  end.

(** [this._options.hasOwnProperty(name)].  The method is looked up on the
    options object itself, so an option named [hasOwnProperty] shadows the
    one every object inherits: calling it throws a [TypeError] when it is no
    function, and gives whatever that function gives when it is one. *)
Definition hasOwnProperty_of_options (name : JsVal) : M bool :=
  let! this := get in
  match _options this !! "hasOwnProperty"%string with
  | None => ret (bool_decide (is_Some (_options this !! js_to_string name)))
  | Some (VNative _) => throw NotModelled
  | Some _ => throw TypeError
  end.

Definition setOption (name value : JsVal) : M unit :=
  let! own := hasOwnProperty_of_options name in
  if own then modify (with_options (insert (js_to_string name) value))
  else throw (UnknownOptionError
                ("Twist Configuration option " +:+ js_to_string name +:+ " is not defined.")).

Definition getOption (name : JsVal) : M JsVal :=
  let! this := get in
  ret (match _options this !! js_to_string name with
       | Some v => v
       | None => object_prototype (js_to_string name)
       end).

Definition addComponent (name config : JsVal) : M unit :=
  modify (with_components (insert (js_to_string name) config)).

Definition addDecorator (name config : JsVal) : M unit :=
  modify (with_decorators (insert (js_to_string name) config)).

(** [config.module = config.module || this.currentLibrary.name;
     config.export = config.export || name;] *)
Definition default_module_export (name config : JsVal) : M JsVal :=
  let! this := get in
  let! m := lift (get_prop config "module") in
  let! config :=
    lift (set_prop config "module"
            (js_or m (of_name (lib_name (currentLibrary (_libraryLoader this)))))) in
  let! e := lift (get_prop config "export") in
  lift (set_prop config "export" (js_or e name)).

(** The callback of the decorators step.  [config.inherits.module = ...]
    writes into the object [config.inherits] refers to, which is stored back
    under [inherits] here. *)
Definition merge_decorator (name config : JsVal) : M unit :=
  let! this := get in
  let! config := default_module_export name config in
  let! inherits := lift (get_prop config "inherits") in
  let! config :=
    (if truthy inherits then
       let inherits := match inherits with
                       | VStr _ => VObj [("export"%string, inherits)]
                       | _ => inherits
                       end in
       let! im := lift (get_prop inherits "module") in
       let! inherits :=
         lift (set_prop inherits "module"
                 (js_or im (of_name (lib_name (currentLibrary (_libraryLoader this)))))) in
       lift (set_prop config "inherits" inherits)
     else ret config) in
  addDecorator name config.

(** The callback of the components step. *)
Definition merge_component (name config : JsVal) : M unit :=
  let! config := default_module_export name config in
  addComponent name config.

(** [mergeConfig(config = {})].  The recursion through [addLibrary] and
    through the contextual configuration is bounded by [depth]; a call that
    needs more nesting than that gives [Diverge]. *)
Fixpoint mergeConfig (depth : nat) (config : JsVal) : M unit :=
  match depth with
  | O => diverge
  | S depth' =>
      let config := default_options config in
      modify (with_callCount S) ;;
      let! libraries := lift (get_prop config "libraries") in
      _forEachConfig libraries (addLibrary (mergeConfig depth')) ;;
      let! decorators := lift (get_prop config "decorators") in
      _forEachConfig decorators merge_decorator ;;
      let! components := lift (get_prop config "components") in
      _forEachConfig components merge_component ;;
      let! babelPlugins := lift (get_prop config "babelPlugins") in
      _forEachConfig babelPlugins addBabelPlugin ;;
      let! options := lift (get_prop config "options") in
      _forEachConfig options setOption ;;
      let! context_ := lift (get_prop config "context") in
      if truthy context_ then
        let! this := get in
        let! nested := lift (get_computed context_ (context this)) in
        mergeConfig depth' nested
      else ret tt
  end.

(** [new TwistConfiguration(contextName, options)], [options] given by its
    own properties. *)
Definition constructor (depth : nat) (contextName : option string)
  (options : list (string * JsVal)) : TwistConfiguration * Res unit :=
  let this :=
    {| context := match contextName with
                  | Some c => if String.eqb c "" then "node"%string else c
                  | None => "node"%string
                  end;
       _options := list_to_map options ∪ DEFAULT_OPTIONS;
       _components := ∅;
       _decorators := ∅;
       _babelPlugins := [];
       _pathAliases := {[ "babel-runtime/helpers/inherits"%string := inherits_shim host ]};
       _libraryLoader := {| libraryInfos := []; currentLibrary := rootLibrary |};
       console_warn := [];
       mergeConfig_callCount := 0 |} in
  match assoc "root" options with
  | Some VNull => (this, Ok tt)
  | root =>
      addLibrary (mergeConfig depth) (js_or (default VUndef root) (VStr (cwd host))) VUndef this
  end.

(** The getter [libraryLocations]. *)
Definition libraryLocations (this : TwistConfiguration) : gmap string JsVal :=
  foldl (fun libraries library =>
           <[ js_to_string (of_name (lib_name library)) := of_name (lib_path library) ]>
             libraries)
        ∅ (libraryInfos (_libraryLoader this)).

End Program.

(** ** A host to run the program on

    A small installation in the manner of the repository's test libraries:
    an application that loads a library and overrides one of its
    components, two copies of one package at different versions, a package
    without a configuration file, a scoped package that declares a
    decorator by its bare name, and a package with a contextual option. *)

Definition lookup_file {A} (files : list (string * A)) (dir : string) : option A :=
  snd <$> find (fun f => String.eqb (fst f) dir) files.

Definition D1 : JsVal := VObj [("module", VStr "@twist/core"); ("export", VStr "MyComponent")].
Definition D2 : JsVal := VObj [("module", VStr "my-module"); ("export", VStr "OverriddenComponent")].

Definition context_document : JsVal :=
  VObj [("options", VObj [("regenerator", VBool false)]);
        ("context", VObj [("webpack", VObj [("options", VObj [("regenerator", VBool true)])])])].

Definition override_document (L x : string) (declaration : JsVal) : JsVal :=
  VObj [("libraries", VArr [VStr L]); ("components", VObj [(x, declaration)])].

Definition sample_manifests : list (string * Manifest) :=
  [("/app", {| pkg_name := Some "app"; pkg_version := Some "0.1.0" |});
   ("/libs/L", {| pkg_name := Some "L"; pkg_version := Some "1.0.0" |});
   ("/libs/A1", {| pkg_name := Some "A"; pkg_version := Some "1.0" |});
   ("/libs/A2", {| pkg_name := Some "A"; pkg_version := Some "2.0" |});
   ("/libs/bare", {| pkg_name := Some "bare"; pkg_version := Some "1.0.0" |});
   ("/libs/bogus", {| pkg_name := Some "bogus"; pkg_version := Some "1.0.0" |});
   ("/node_modules/@x/y", {| pkg_name := Some "@x/y"; pkg_version := Some "3.1.4" |});
   ("/libs/widget", {| pkg_name := Some "widget"; pkg_version := Some "1.0.0" |});
   ("/libs/ctx", {| pkg_name := Some "ctx"; pkg_version := Some "1.0.0" |});
   ("/test/testLibrary3",
    {| pkg_name := Some "test-library3"; pkg_version := Some "1.0.0" |})]%string.

(** A document that yields what the repository's tests expect of their third
    test library: implicit and explicit decorator fields, two plugins, an
    option, and options for the webpack context. *)
Definition testLibrary3_document : JsVal :=
  VObj [("decorators",
         VArr [VStr "Decorator1";
               VArr [VStr "Decorator2"; VObj [("module", VStr "@twist/test")]];
               VArr [VStr "Decorator3";
                     VObj [("module", VStr "@twist/test"); ("export", VStr "Dec")]];
               VArr [VStr "Decorator4"; VObj [("inherits", VStr "BaseClass")]];
               VArr [VStr "Decorator5";
                     VObj [("inherits", VObj [("module", VStr "@twist/test");
                                              ("export", VStr "BaseClass")])]]]);
        ("babelPlugins",
         VArr [VStr "plugin1"; VArr [VStr "plugin2"; VObj [("option", VBool true)]]]);
        ("options", VObj [("polyfill", VNum 42)]);
        ("context",
         VObj [("webpack", VObj [("options", VObj [("polyfill", VNum 1024);
                                                   ("regenerator", VStr "hello")])])])]%string.

Definition sample_twistrc : list (string * JsVal) :=
  [("/app", override_document "/libs/L" "x" D2);
   ("/libs/L", VObj [("components", VObj [("x", D1)])]);
   ("/libs/A1", VObj []);
   ("/libs/A2", VObj []);
   ("/libs/bogus", VObj [("options", VObj [("doesNotExist", VNum 1)])]);
   ("/node_modules/@x/y", VObj [("decorators", VArr [VStr "Store"])]);
   ("/libs/widget", VObj [("decorators", VObj [("Widget", VObj [("inherits", VStr "")])])]);
   ("/libs/ctx", context_document);
   ("/test/testLibrary3", testLibrary3_document)]%string.

Definition sampleHost : Host :=
  {| cwd := "/app";
     resolveRoot := fun name =>
       if String.eqb name "@x/y" then Some "/node_modules/@x/y"%string
       else if bool_decide (is_Some (lookup_file sample_manifests name)) then Some name
       else None;
     packageJson := lookup_file sample_manifests;
     twistrc := fun dir => match lookup_file sample_twistrc dir with
                           | Some document => TwistrcJson document
                           | None => TwistrcAbsent
                           end;
     twistrc_js := fun _ => ModuleAbsent;
     inherits_shim := "/node_modules/@twist/configuration/src/third_party/inherits.js" |}.

(** [new TwistConfiguration('node', { root: null })], as the tests build it. *)
Definition idle : TwistConfiguration := fst (constructor sampleHost 0 (Some "node"%string) [("root"%string, VNull)]).

(** The instance after [addLibrary('/libs/A1')], and after the failed attempt
    to add the other version of the same package on top of that. *)
Definition after_A1 : TwistConfiguration :=
  fst (load sampleHost (mergeConfig sampleHost 2) (VStr "/libs/A1") VUndef idle).

Definition after_conflict : TwistConfiguration :=
  fst (load sampleHost (mergeConfig sampleHost 2) (VStr "/libs/A2") VUndef after_A1).

Definition record_A2 : LibraryInfo :=
  {| lib_path := Some "/libs/A2"%string; lib_options := VObj [];
     parentLibrary := Some rootLibrary;
     lib_name := Some "A"%string; lib_version := Some "2.0"%string |}.

Definition record_bogus : LibraryInfo :=
  {| lib_path := Some "/libs/bogus"%string; lib_options := VObj [];
     parentLibrary := Some rootLibrary;
     lib_name := Some "bogus"%string; lib_version := Some "1.0.0"%string |}.

Definition after_L : TwistConfiguration :=
  fst (load sampleHost (mergeConfig sampleHost 2) (VStr "/libs/L") VUndef after_A1).

Definition record_A1 : LibraryInfo :=
  {| lib_path := Some "/libs/A1"%string; lib_options := VObj [];
     parentLibrary := Some rootLibrary;
     lib_name := Some "A"%string; lib_version := Some "1.0"%string |}.

Definition permuted_options_1 : JsVal := VObj [("a", VNum 1); ("b", VNum 2)].
Definition permuted_options_2 : JsVal := VObj [("b", VNum 2); ("a", VNum 1)].

(** The lines of a load chain, described by position and written without
    the helpers of the program: line [i] starts with [4 + 2 i] space
    characters, every line but the first is introduced by the words
    "loaded by", and the lines are separated by a line feed. *)
Definition indentation (n : nat) : string := string_of_list_ascii (repeat " "%char n).

Definition line_break : string := String "010"%char EmptyString.

Fixpoint chain (r : LibraryInfo) : list LibraryInfo :=
  r :: match parentLibrary r with Some p => chain p | None => [] end.

Definition label (r : LibraryInfo) : string :=
  default "undefined"%string (lib_name r)
    +:+ match lib_version r with
        | Some v => if String.eqb v "" then "" else " " +:+ v
        | None => ""
        end.

Definition trace_line (i : nat) (r : LibraryInfo) : string :=
  indentation (4 + 2 * i) +:+ (match i with O => "" | S _ => "└─ loaded by " end)
    +:+ label r.

(** A record's chain ends at the sentinel; a loader is rooted when that
    holds of the current library and of every record of the registry. *)
Definition ends_at_root (r : LibraryInfo) : Prop := last (chain r) = Some rootLibrary.

Definition rooted (s : TwistConfiguration) : Prop :=
  ends_at_root (currentLibrary (_libraryLoader s))
  ∧ Forall ends_at_root (libraryInfos (_libraryLoader s)).

(** The states an instance goes through: the one its constructor leaves,
    and the ones its methods leave, however they end. *)
Inductive reachable (host : Host) : TwistConfiguration → Prop :=
| reachable_new depth contextName options :
    reachable host (constructor host depth contextName options).1
| reachable_addLibrary s depth library options :
    reachable host s →
    reachable host (addLibrary host (mergeConfig host depth) library options s).1
| reachable_mergeConfig s depth config :
    reachable host s → reachable host (mergeConfig host depth config s).1
| reachable_addBabelPlugin s plugin options :
    reachable host s → reachable host (addBabelPlugin plugin options s).1
| reachable_setOption s name value :
    reachable host s → reachable host (setOption name value s).1
| reachable_addComponent s name config :
    reachable host s → reachable host (addComponent name config s).1
| reachable_addDecorator s name config :
    reachable host s → reachable host (addDecorator name config s).1.

(** Structural equality of two values as the specification words it for the
    options of a load: arrays agree element by element, objects carry the
    same keys with structurally equal values, in whatever order. *)
Fixpoint structurally_equal (a b : JsVal) : bool :=
  match a, b with
  | VUndef, VUndef | VNull, VNull => true
  | VBool x, VBool y => Bool.eqb x y
  | VNum x, VNum y => (x =? y)%Z
  | VStr x, VStr y => String.eqb x y
  | VNative x, VNative y => String.eqb x y
  | VArr xs, VArr ys =>
      (fix go (xs ys : list JsVal) : bool :=
         match xs, ys with
         | [], [] => true
         | x :: xs', y :: ys' => structurally_equal x y && go xs' ys'
         | _, _ => false
         end) xs ys
  | VObj ps, VObj qs =>
      Nat.eqb (length ps) (length qs)
      && (fix go (ps : list (string * JsVal)) : bool :=
            match ps with
            | [] => true
            | (k, v) :: ps' =>
                match assoc k qs with
                | Some w => structurally_equal v w
                | None => false
                end && go ps'
            end) ps
  | _, _ => false
  end.

(** What a fresh instance recognises as option names by default. *)
Definition schema_keys : gset string :=
  {[ "includeBabelRuntime"; "jsxSourceLines"; "polyfill"; "regenerator"; "targets";
     "transformImports"; "useBabelModuleResolver" ]}%string.

(** The options object inherits [hasOwnProperty]: no option of that name
    stands in front of the method [setOption] tests names with. *)
Definition inherits_hasOwnProperty (s : TwistConfiguration) : Prop :=
  _options s !! "hasOwnProperty"%string = None.

(** An option named [hasOwnProperty] holds a function, which [setOption]
    then calls in place of the method. *)
Definition shadowed_by_function (s : TwistConfiguration) : bool :=
  match _options s !! "hasOwnProperty"%string with
  | Some (VNative _) => true
  | _ => false
  end.

(** [new TwistConfiguration('node', { root: null, hasOwnProperty: 1 })]. *)
Definition shadowed : TwistConfiguration :=
  fst (constructor sampleHost 0 (Some "node"%string)
         [("root"%string, VNull); ("hasOwnProperty"%string, VNum 1)]).

(** An instance in the webpack context, one that is loading the scoped
    package, and the record of that package. *)
Definition idle_webpack : TwistConfiguration :=
  fst (constructor sampleHost 0 (Some "webpack"%string) [("root"%string, VNull)]).

Definition record_xy : LibraryInfo :=
  {| lib_path := Some "/node_modules/@x/y"%string; lib_options := VObj [];
     parentLibrary := Some rootLibrary;
     lib_name := Some "@x/y"%string; lib_version := Some "3.1.4"%string |}.

Definition loading_xy : TwistConfiguration := enter_library record_xy (push_library record_xy idle).

(** ** Notions the properties are stated with *)

(** [steps R m]: whatever [m] does, and however it ends, the state it leaves
    is [R]-related to the state it started in. *)
Definition steps (R : relation TwistConfiguration) {A} (m : M A) : Prop :=
  ∀ s, R s (m s).1.

(** The recognised option names stay what they are. *)
Definition same_option_names : relation TwistConfiguration :=
  λ s s', dom (_options s') = dom (_options s).

(** The context an instance was constructed with stays what it is. *)
Definition same_context : relation TwistConfiguration :=
  λ s s', context s' = context s.

(** The registry only grows, at its end. *)
Definition registry_grows : relation TwistConfiguration :=
  λ s s', libraryInfos (_libraryLoader s) `prefix_of` libraryInfos (_libraryLoader s').

(** The current library is where it was, or somewhere beneath it. *)
Definition current_at_or_below : relation TwistConfiguration :=
  λ s s', chain (currentLibrary (_libraryLoader s))
            `suffix_of` chain (currentLibrary (_libraryLoader s')).

(** A rooted loader stays rooted. *)
Definition keeps_rooted : relation TwistConfiguration := λ s s', rooted s → rooted s'.

(** The declarations [merge_decorator] does not fail on: [inherits] absent,
    falsy, a string or an object literal. *)
Definition inherits_supported (declaration : list (string * JsVal)) : bool :=
  match assoc "inherits" declaration with
  | None => true
  | Some v => negb (truthy v) || match v with VStr _ | VObj _ => true | _ => false end
  end.

(** A declaration after the two defaulting assignments. *)
Definition with_module_export (library name : JsVal) (declaration : list (string * JsVal))
  : list (string * JsVal) :=
  assoc_set "export" (js_or (default VUndef (assoc "export" declaration)) name)
    (assoc_set "module" (js_or (default VUndef (assoc "module" declaration)) library)
       declaration).

(** ** The derived views *)

(** What [twistOptions] puts under a key: an option's value, one of the two
    computed maps, or the copy of the plugin list. *)
Inductive OptionValue : Type :=
| PlainOption (value : JsVal)
| MapOption (entries : gmap string JsVal)
| PluginsOption (plugins : list (JsVal * JsVal)).

(** The getter [twistOptions]: each [Object.assign] lets its later sources
    win, so the path aliases go over the library locations, the components
    over the decorators, and the three computed entries over the options. *)
Definition twistOptions (this : TwistConfiguration) : gmap string OptionValue :=
  let aliases := (VStr <$> _pathAliases this) ∪ libraryLocations this in
  let autoImport := _components this ∪ _decorators this in
  let plugins := _babelPlugins this in
  <["plugins"%string := PluginsOption plugins]>
    (<["autoImport"%string := MapOption autoImport]>
       (<["aliases"%string := MapOption aliases]> (PlainOption <$> _options this))).

(** ** A second host

    Two libraries that name each other, a library whose document sets an
    option, a third version of the first host's package A, a package whose
    manifest does not parse, and the repository's
    second test library, whose configuration is a function of the options. *)

Definition testLibrary2_module (options : JsVal) : Res JsVal :=
  match get_prop options "componentName" with
  | Ok componentName =>
      Ok (VObj [("decorators",
                 VArr [VArr [VStr "Store";
                             VObj [("module", VStr "@twist/core"); ("export", VStr "Store");
                                   ("inherits", VObj [("module", VStr "@twist/core");
                                                      ("export", VStr "BaseStore")])]]]);
                ("components",
                 VArr [VArr [componentName;
                             VObj [("module", VStr "@twist/core");
                                   ("export", VStr "MyComponent")]]])]%string)
  | Throw e => Throw e
  | Diverge => Diverge
  end.

Definition second_manifests : list (string * Manifest) :=
  [("/cycle/a", {| pkg_name := Some "a"; pkg_version := Some "1.0.0" |});
   ("/cycle/b", {| pkg_name := Some "b"; pkg_version := Some "1.0.0" |});
   ("/libs/runtime", {| pkg_name := Some "runtime"; pkg_version := Some "1.0.0" |});
   ("/libs/A3", {| pkg_name := Some "A"; pkg_version := Some "3.0" |});
   ("/test/testLibrary2",
    {| pkg_name := Some "test-library2"; pkg_version := Some "1.0.0" |})]%string.

Definition second_twistrc : list (string * JsVal) :=
  [("/cycle/a", VObj [("libraries", VArr [VStr "/cycle/b"])]);
   ("/cycle/b", VObj [("libraries", VArr [VStr "/cycle/a"])]);
   ("/libs/runtime", VObj [("options", VObj [("includeBabelRuntime", VBool false)])])]%string.

Definition secondHost : Host :=
  {| cwd := "/cycle/a";
     resolveRoot := fun name =>
       if String.eqb name "broken" then Some "/libs/broken"%string
       else if bool_decide (is_Some (lookup_file second_manifests name)) then Some name
       else None;
     packageJson := lookup_file second_manifests;
     twistrc := fun dir => match lookup_file second_twistrc dir with
                           | Some document => TwistrcJson document
                           | None => TwistrcAbsent
                           end;
     twistrc_js := fun dir =>
       if String.eqb dir "/test/testLibrary2" then ModuleFunction testLibrary2_module
       else ModuleAbsent;
     inherits_shim := "/node_modules/@twist/configuration/src/third_party/inherits.js" |}.

Definition injected_options : JsVal :=
  VObj [("componentName"%string, VStr "injected:componentname")].

(** An instance that merged the third test library's document and was
    then given its first plugin once more, and one that loaded package A
    twice, with different options. *)
Definition after_plugins : TwistConfiguration :=
  fst (addBabelPlugin (VStr "plugin1") (VObj [("late"%string, VBool true)])
         (fst (mergeConfig sampleHost 2 testLibrary3_document idle))).

Definition after_A1_twice : TwistConfiguration :=
  fst (addLibrary sampleHost (mergeConfig sampleHost 2) (VStr "/libs/A1")
         (VObj [("verbose"%string, VBool true)]) after_A1).

(** ** Further notions the properties are stated with *)

(** Whether a call returned normally. *)
Definition returned {A} (r : Res A) : bool := match r with Ok _ => true | _ => false end.

(** [ends R m]: the state [m] leaves is [R]-related to the state it started
    in, where [R] is also told whether [m] returned normally. *)
Definition ends (R : TwistConfiguration → TwistConfiguration → bool → Prop) {A} (m : M A)
  : Prop :=
  ∀ s, R s (m s).1 (returned (m s).2).

(** [P] is kept by the calls that return normally. *)
Definition when_returned (P : TwistConfiguration → Prop)
  : TwistConfiguration → TwistConfiguration → bool → Prop :=
  λ s s' b, b = true → P s → P s'.

(** What the duplicate check of [load] compares: the path and the JSON text
    of the options. *)
Definition load_key (r : LibraryInfo) : option string * option string :=
  (lib_path r, JSON_stringify (lib_options r)).

Definition no_repeated_load (s : TwistConfiguration) : Prop :=
  NoDup (load_key <$> libraryInfos (_libraryLoader s)).

Definition one_version_per_name (s : TwistConfiguration) : Prop :=
  ∀ a b, a ∈ libraryInfos (_libraryLoader s) → b ∈ libraryInfos (_libraryLoader s) →
         lib_name a = lib_name b → lib_version a = lib_version b.

Definition distinct_plugins (s : TwistConfiguration) : Prop :=
  ∀ i j a b, i < j → _babelPlugins s !! i = Some a → _babelPlugins s !! j = Some b →
             strict_eq a.1 b.1 = false.


(** The key [libraryLocations] files a record under. *)
Definition location_key (r : LibraryInfo) : string := js_to_string (of_name (lib_name r)).

(** A mapping entry written as an entry of the sequence form. *)
Definition as_pair (entry : string * JsVal) : JsVal := VArr [VStr entry.1; entry.2].

(** The keys [mergeConfig] reads from a document. *)
Definition document_keys : list string :=
  ["libraries"; "decorators"; "components"; "babelPlugins"; "options"; "context"]%string.

Definition declares_nothing (config : JsVal) : Prop :=
  match config with
  | VNull => False
  | VObj props => ∀ k, k ∈ document_keys → assoc k props = None
  | _ => True
  end.


(** The record [load] builds for a library found at [libraryPath]. *)
Definition library_record (libraryPath : string) (options : JsVal) (manifest : Manifest)
  (parent : LibraryInfo) : LibraryInfo :=
  {| lib_path := Some libraryPath; lib_options := default_options options;
     parentLibrary := Some parent;
     lib_name := pkg_name manifest; lib_version := pkg_version manifest |}.

Definition missing_twistrc_warning (libraryName : JsVal) : string :=
  "Failed to find .twistrc file for " +:+ js_to_string libraryName
    +:+ " - make sure that it has a configuration in its root".

(** The end of [load] after the document was handed to [mergeConfig]: the
    parent becomes current again only when the merge returned. *)
Definition leave_after (parent : LibraryInfo) (merge : TwistConfiguration * Res unit)
  : TwistConfiguration * Res unit :=
  match merge with
  | (merged, Ok _) => (enter_library parent merged, Ok tt)
  | (merged, Throw e) => (merged, Throw e)
  | (merged, Diverge) => (merged, Diverge)
  end.

(** * Properties *)

Example JSON_stringify_sample :
  JSON_stringify (VObj [("a", VNum 1); ("u", VUndef); ("b", VArr [VStr "x"; VUndef; VBool true])])
  = Some (String.concat "" ["{"; json_quote "a"; ":1,"; json_quote "b"; ":[";
                            json_quote "x"; ",null,true]}"])%string.
Proof. vm_compute. reflexivity. Qed.

(** ** Property lists *)

Lemma assoc_set_eq k v props : assoc k (assoc_set k v props) = Some v.
Proof.
  induction props as [|[k' v'] rest IH]; simpl.
  - by rewrite String.eqb_refl.
  - destruct (String.eqb_spec k k') as [->|Hne]; simpl.
    + by rewrite String.eqb_refl.
    + by rewrite (proj2 (String.eqb_neq k k') Hne).
Qed.

Lemma assoc_set_ne k k' v props : k ≠ k' → assoc k' (assoc_set k v props) = assoc k' props.
Proof.
  intros Hne. induction props as [|[k0 v0] rest IH]; simpl.
  - by rewrite (proj2 (String.eqb_neq k' k)).
  - destruct (String.eqb_spec k k0) as [->|Hk]; simpl.
    + by rewrite !(proj2 (String.eqb_neq k' k0)).
    + by rewrite IH.
Qed.


(** ** The declaration callbacks, case by case *)

Ltac run := unfold bind, get, lift, ret, throw, modify; simpl.

Lemma default_module_export_state name config s :
  (default_module_export name config s).1 = s.
Proof.
  unfold default_module_export. run.
  destruct (get_prop config "module"); simpl; try done.
  destruct (set_prop config "module" _) as [c| |]; simpl; try done.
  destruct (get_prop c "export"); simpl; try done.
Qed.

Lemma merge_component_cases name config s :
  (∃ r, merge_component name config s = (s, r) ∧ r ≠ Ok tt)
  ∨ (∃ c, default_module_export name config s = (s, Ok c)
          ∧ merge_component name config s
            = (with_components (insert (js_to_string name) c) s, Ok tt)).
Proof.
  unfold merge_component, bind.
  pose proof (default_module_export_state name config s) as H.
  destruct (default_module_export name config s) as [s' [c| |]]; simpl in H; subst s'.
  - right. by exists c.
  - left. by eexists.
  - left. by eexists.
Qed.

Lemma merge_decorator_cases name config s :
  (∃ r, merge_decorator name config s = (s, r) ∧ r ≠ Ok tt)
  ∨ (∃ c, merge_decorator name config s
          = (with_decorators (insert (js_to_string name) c) s, Ok tt)).
Proof.
  unfold merge_decorator, default_module_export, addDecorator. run.
  repeat (case_match; simpl; simplify_eq;
          try (left; eexists; split; [reflexivity|discriminate]);
          try (right; eexists; reflexivity)).
Qed.

(** [setOption] either writes an option the object has, or throws and
    leaves the state as it was. *)
Lemma setOption_known name value s :
  _options s !! "hasOwnProperty"%string = None →
  is_Some (_options s !! js_to_string name) →
  setOption name value s = (with_options (insert (js_to_string name) value) s, Ok tt).
Proof.
  intros Hinherits [v Hname]. unfold setOption, hasOwnProperty_of_options. run.
  by rewrite Hinherits, Hname.
Qed.

Lemma setOption_cases name value s :
  (is_Some (_options s !! js_to_string name)
   ∧ _options s !! "hasOwnProperty"%string = None
   ∧ setOption name value s = (with_options (insert (js_to_string name) value) s, Ok tt))
  ∨ (∃ e, setOption name value s = (s, Throw e)).
Proof.
  unfold setOption, hasOwnProperty_of_options. run.
  destruct (_options s !! "hasOwnProperty"%string) as [[]|] eqn:Hshadow; simpl;
    try (right; by eexists).
  destruct (_options s !! js_to_string name) as [v|] eqn:Hname; simpl.
  - left. by repeat split.
  - right. by eexists.
Qed.

(** ** The loader, case by case *)

Lemma newLibraryInfo_fields host p options parent li :
  newLibraryInfo host (Some p) options parent = Ok li →
  lib_path li = Some p ∧ lib_options li = options ∧ parentLibrary li = parent.
Proof.
  unfold newLibraryInfo. destruct (String.eqb p "").
  - by intros [= <-].
  - destruct (packageJson host p); [by intros [= <-]|done].
Qed.

Lemma loadConfigFile_state host options s : (loadConfigFile host options s).1 = s.
Proof.
  unfold loadConfigFile. run. repeat case_match; done.
Qed.

(** [load] with its binds carried out. *)
Lemma load_unfold host mergeConfig libraryName options s :
  load host mergeConfig libraryName options s
  = match getRootDir host libraryName with
    | Ok libraryPath =>
        match find (same_load libraryPath (default_options options))
                   (libraryInfos (_libraryLoader s)) with
        | Some _ => (s, Ok tt)
        | None =>
            match newLibraryInfo host (Some libraryPath) (default_options options)
                                 (Some (currentLibrary (_libraryLoader s))) with
            | Ok libraryInfo =>
                let entered := enter_library libraryInfo (push_library libraryInfo s) in
                match find (conflicts_with libraryInfo)
                           (libraryInfos (_libraryLoader s) ++ [libraryInfo]) with
                | Some conflictLib =>
                    (entered,
                     Throw (VersionConflictError (conflict_message libraryInfo conflictLib)))
                | None =>
                    match (loadConfigFile host (default_options options) entered).2 with
                    | Ok libraryConfig =>
                        match (if truthy libraryConfig then mergeConfig libraryConfig
                               else modify (with_console_warn (λ w,
                                      w ++ ["Failed to find .twistrc file for "
                                              +:+ js_to_string libraryName
                                              +:+ " - make sure that it has a configuration in its root"])))
                                entered with
                        | (merged, Ok _) =>
                            (enter_library (default libraryInfo (parentLibrary libraryInfo))
                                           merged, Ok tt)
                        | (merged, Throw e) => (merged, Throw e)
                        | (merged, Diverge) => (merged, Diverge)
                        end
                    | Throw e => (entered, Throw e)
                    | Diverge => (entered, Diverge)
                    end
                end
            | Throw e => (s, Throw e)
            | Diverge => (s, Diverge)
            end
        end
    | Throw e => (s, Throw e)
    | Diverge => (s, Diverge)
    end.
Proof.
  unfold load. cbv zeta. unfold bind at 1, lift at 1.
  destruct (getRootDir host libraryName) as [p| |]; try done.
  unfold bind at 1, get at 1.
  destruct (find (same_load _ _) _); [done|].
  unfold bind at 1, lift at 1.
  destruct (newLibraryInfo _ _ _ _) as [li| |]; try done.
  unfold bind at 1 2 3, modify at 1 2, get at 1. simpl.
  destruct (find (conflicts_with li) _); [done|].
  unfold bind at 1.
  pose proof (loadConfigFile_state host (default_options options)
                (enter_library li (push_library li s))) as Hs.
  destruct (loadConfigFile _ _ _) as [s' r]. simpl in Hs. subst s'. simpl.
  destruct r as [doc| |]; done.
Qed.

(** ** A program logic for method bodies *)
Section Steps.

Context (R : relation TwistConfiguration) `{!PreOrder R}.


Lemma steps_ret {A} (a : A) : steps R (ret a).
Proof. intros s. reflexivity. Qed.

Lemma steps_throw {A} e : steps R (@throw A e).
Proof. intros s. reflexivity. Qed.

Lemma steps_diverge {A} : steps R (@diverge A).
Proof. intros s. reflexivity. Qed.

Lemma steps_lift {A} (r : Res A) : steps R (lift r).
Proof. intros s. reflexivity. Qed.

Lemma steps_get : steps R get.
Proof. intros s. reflexivity. Qed.

Lemma steps_modify f : (∀ s, R s (f s)) → steps R (modify f).
Proof. intros H s. apply H. Qed.

Lemma steps_bind {A B} (m : M A) (k : A → M B) :
  steps R m → (∀ a, steps R (k a)) → steps R (bind m k).
Proof.
  intros Hm Hk s. unfold bind. specialize (Hm s).
  destruct (m s) as [s' [a| |]]; simpl in *; try done.
  etrans; [exact Hm|apply Hk].
Qed.

(** The bodies that leave the state as it is. *)
Ltac same_state := let s := fresh "s" in intros s; simpl; reflexivity.

(** The same rule when the continuation reads the state it runs in. *)
Lemma steps_bind_get {B} (k : TwistConfiguration → M B) :
  (∀ s, R s (k s s).1) → steps R (bind get k).
Proof. intros Hk s. apply Hk. Qed.

Lemma steps_forEach {A} (f : A → M unit) l : (∀ x, steps R (f x)) → steps R (forEach f l).
Proof.
  intros Hf. induction l as [|x l IH]; simpl.
  - same_state.
  - apply steps_bind; [apply Hf|done].
Qed.

Lemma steps_forEachConfig config callback :
  (∀ name c, steps R (callback name c)) → steps R (_forEachConfig config callback).
Proof.
  intros Hcb. destruct config; simpl; try same_state.
  - apply steps_forEach. intros entry.
    destruct (truthy entry); simpl; [|same_state].
    destruct entry; apply Hcb.
  - apply steps_forEach. intros key. apply Hcb.
Qed.

(** What the relation has to absorb: each write the two classes make. *)
Hypothesis R_enter :
  ∀ li s, parentLibrary li = Some (currentLibrary (_libraryLoader s)) →
          R s (enter_library li (push_library li s)).
Hypothesis R_leave :
  ∀ s s', R s s' → R s (enter_library (currentLibrary (_libraryLoader s)) s').
Hypothesis R_warn : ∀ f s, R s (with_console_warn f s).
Hypothesis R_count : ∀ s, R s (with_callCount S s).
Hypothesis R_decorators : ∀ f s, R s (with_decorators f s).
Hypothesis R_components : ∀ f s, R s (with_components f s).
Hypothesis R_babelPlugins : ∀ f s, R s (with_babelPlugins f s).
Hypothesis R_options :
  ∀ k v s, is_Some (_options s !! k) → R s (with_options (insert k v) s).

Variable host : Host.

Lemma steps_load mergeConfig libraryName options :
  (∀ document, steps R (mergeConfig document)) →
  steps R (load host mergeConfig libraryName options).
Proof.
  intros Hmc s. rewrite load_unfold.
  destruct (getRootDir host libraryName) as [p| |]; try reflexivity.
  destruct (find (same_load _ _) _); [reflexivity|].
  destruct (newLibraryInfo _ _ _ _) as [li| |] eqn:Hli; try reflexivity.
  apply newLibraryInfo_fields in Hli as (_ & _ & Hparent).
  pose proof (R_enter li s Hparent) as Hentered. cbv zeta.
  destruct (find (conflicts_with li) _); [done|].
  destruct (loadConfigFile _ _ _).2 as [doc| |]; try done.
  destruct (truthy doc).
  - pose proof (Hmc doc (enter_library li (push_library li s))) as Hm.
    destruct (mergeConfig doc _) as [s3 [[]| |]]; simpl in *;
      try (by etrans).
    rewrite Hparent. simpl. apply R_leave. by etrans.
  - unfold modify. simpl. rewrite Hparent. simpl. apply R_leave.
    etrans; [exact Hentered|apply R_warn].
Qed.

Lemma steps_merge_decorator name config : steps R (merge_decorator name config).
Proof.
  intros s. destruct (merge_decorator_cases name config s) as [(r & -> & _)|(c & ->)]; simpl.
  - reflexivity.
  - apply R_decorators.
Qed.

Lemma steps_merge_component name config : steps R (merge_component name config).
Proof.
  intros s. destruct (merge_component_cases name config s) as [(r & -> & _)|(c & _ & ->)]; simpl.
  - reflexivity.
  - apply R_components.
Qed.

Lemma steps_addBabelPlugin plugin options : steps R (addBabelPlugin plugin options).
Proof.
  apply steps_bind_get. intros s.
  destruct (find _ _); [reflexivity|]. apply R_babelPlugins.
Qed.

Lemma steps_setOption name value : steps R (setOption name value).
Proof.
  intros s. destruct (setOption_cases name value s) as [(Hname & _ & ->)|[e ->]]; simpl.
  - by apply R_options.
  - reflexivity.
Qed.

Lemma steps_mergeConfig depth config : steps R (mergeConfig host depth config).
Proof.
  revert config. induction depth as [|depth IH]; intros config; simpl.
  - same_state.
  - apply steps_bind; [by apply steps_modify|]. intros _.
    apply steps_bind; [same_state|]. intros libraries.
    apply steps_bind.
    { apply steps_forEachConfig. intros n o. by apply steps_load. }
    intros _. apply steps_bind; [same_state|]. intros decorators.
    apply steps_bind.
    { apply steps_forEachConfig, steps_merge_decorator. }
    intros _. apply steps_bind; [same_state|]. intros components.
    apply steps_bind.
    { apply steps_forEachConfig, steps_merge_component. }
    intros _. apply steps_bind; [same_state|]. intros babelPlugins.
    apply steps_bind.
    { apply steps_forEachConfig, steps_addBabelPlugin. }
    intros _. apply steps_bind; [same_state|]. intros options.
    apply steps_bind.
    { apply steps_forEachConfig, steps_setOption. }
    intros _. apply steps_bind; [same_state|]. intros context_.
    destruct (truthy context_); [|same_state].
    apply steps_bind_get. intros s. revert s.
    apply steps_bind; [same_state|]. intros nested. apply IH.
Qed.

End Steps.

(** ** The relations the program logic is used with *)

#[local] Instance same_option_names_preorder : PreOrder same_option_names.
Proof.
  split; [by intros s|]. intros s1 s2 s3. unfold same_option_names. congruence.
Qed.

#[local] Instance registry_grows_preorder : PreOrder registry_grows.
Proof.
  split; [intros s; unfold registry_grows; reflexivity|].
  intros s1 s2 s3. unfold registry_grows. intros H1 H2. by etrans.
Qed.


Lemma mergeConfig_registry_grows host depth config s :
  libraryInfos (_libraryLoader s)
    `prefix_of` libraryInfos (_libraryLoader (mergeConfig host depth config s).1).
Proof.
  apply (steps_mergeConfig registry_grows);
    try (intros; unfold registry_grows; simpl; reflexivity).
  - intros li s0 _. unfold registry_grows. simpl. by apply prefix_app_r.
  - by intros s0 s'.
Qed.



(** ** Options *)




(** An instance constructed with an option named [hasOwnProperty] takes no
    write at all: a recognised name is refused like any other, with a
    [TypeError] in place of the unknown-option error, and a document with an
    options section cannot be merged. *)
Example shadowed_hasOwnProperty_refuses_every_write :
  setOption (VStr "polyfill") (VNum 5) shadowed = (shadowed, Throw TypeError)
  ∧ setOption (VStr "doesNotExist") (VNum 5) shadowed = (shadowed, Throw TypeError)
  ∧ (mergeConfig sampleHost 1
       (VObj [("options"%string, VObj [("polyfill"%string, VNum 5)])]) shadowed).2
    = Throw TypeError
  ∧ (constructor secondHost 1 (Some "node"%string)
       [("root"%string, VStr "/libs/runtime"); ("includeBabelRuntime"%string, VBool true);
        ("hasOwnProperty"%string, VNum 1)]).2
    = Throw TypeError.
Proof. repeat split; vm_compute; reflexivity. Qed.

(** C10, as the program has it.  [getOption] never fails and never changes
    the state.  For a name that is neither an own key of the options object
    nor a property inherited from [Object.prototype] it returns [undefined],
    and [setOption] rejects that same name: with the unknown-option error
    when the options object inherits [hasOwnProperty], and with some error
    as long as no function stands in front of that method. *)
Theorem getOption_of_unknown_name s name :
  ∃ v, getOption name s = (s, Ok v)
       ∧ (_options s !! js_to_string name = None →
          object_prototype (js_to_string name) = VUndef →
          v = VUndef
          ∧ ∀ value,
              (inherits_hasOwnProperty s →
               ∃ message,
                 setOption name value s = (s, Throw (UnknownOptionError message)))
              ∧ (shadowed_by_function s = false →
                 ∃ e, setOption name value s = (s, Throw e))).
Proof.
  unfold getOption. run. eexists. split; [reflexivity|].
  intros Hname ->. rewrite Hname. split; [done|]. intros value.
  unfold setOption, hasOwnProperty_of_options, inherits_hasOwnProperty,
    shadowed_by_function. run. split.
  - intros ->. rewrite Hname. simpl. by eexists.
  - destruct (_options s !! "hasOwnProperty"%string) as [[]|]; simpl; try done;
      intros _; try (by eexists).
    rewrite Hname. simpl. by eexists.
Qed.

Lemma getOption_of_unknown_name_witness :
  ∃ v, getOption (VStr "doesNotExist") idle = (idle, Ok v)
       ∧ v = VUndef
       ∧ ∀ value, ∃ message,
           setOption (VStr "doesNotExist") value idle
           = (idle, Throw (UnknownOptionError message)).
Proof.
  destruct (getOption_of_unknown_name idle (VStr "doesNotExist")) as (v & Hget & H).
  exists v. split; [exact Hget|].
  destruct H as [Hv Hset]; [vm_compute; reflexivity|vm_compute; reflexivity|].
  split; [exact Hv|]. intros value.
  apply (proj1 (Hset value)). vm_compute. reflexivity.
Defined.

(** C10 as stated fails: [toString] is outside the schema and [setOption]
    rejects it, yet reading it gives the function every object inherits, not
    [undefined]. *)
Lemma getOption_reads_inherited_property :
  ("toString"%string ∉ schema_keys)
  ∧ _options idle !! "toString"%string = None
  ∧ (∃ message,
       setOption (VStr "toString") (VNum 1) idle = (idle, Throw (UnknownOptionError message)))
  ∧ getOption (VStr "toString") idle = (idle, Ok (VNative "Object.prototype.toString"))
  ∧ (getOption (VStr "toString") idle).2 ≠ Ok VUndef.
Proof.
  split; [|split; [|split; [|split]]].
  - unfold schema_keys. set_solver.
  - vm_compute. reflexivity.
  - eexists. vm_compute. reflexivity.
  - unfold getOption. run.
    replace (_options idle !! "toString"%string) with (@None JsVal) by (vm_compute; reflexivity).
    reflexivity.
  - unfold getOption. run.
    replace (_options idle !! "toString"%string) with (@None JsVal) by (vm_compute; reflexivity).
    discriminate.
Qed.

(** ** Loading *)

Lemma same_load_stringify p o1 o2 lib :
  JSON_stringify o1 = JSON_stringify o2 → same_load p o1 lib = same_load p o2 lib.
Proof. intros H. unfold same_load. by rewrite H. Qed.

Lemma find_ext {A} (f g : A → bool) l : (∀ x, f x = g x) → find f l = find g l.
Proof. intros H. induction l as [|x l IH]; simpl; [done|]. by rewrite H, IH. Qed.

Lemma find_is_Some {A} (f : A → bool) l x : x ∈ l → f x = true → is_Some (find f l).
Proof.
  intros Hx Hf. destruct (find f l) eqn:E; [done|].
  apply list_elem_of_In in Hx. pose proof (find_none f l E x Hx). congruence.
Qed.

Lemma find_app_first {A} (f : A → bool) l x y :
  x ∈ l → f x = true →
  ∃ c before after,
    find f (l ++ [y]) = Some c ∧ l = before ++ c :: after ∧ f c = true
    ∧ ∀ r, r ∈ before → f r = false.
Proof.
  intros Hx Hf. induction l as [|a l IH]; [by apply elem_of_nil in Hx|].
  simpl. destruct (f a) eqn:Ha.
  - exists a, [], l. repeat split; try done. intros r Hr. by apply elem_of_nil in Hr.
  - apply elem_of_cons in Hx as [->|Hx]; [congruence|].
    destruct (IH Hx) as (c & before & after & Hfind & -> & Hc & Hbefore).
    exists c, (a :: before), after. repeat split; try done.
    intros r Hr. apply elem_of_cons in Hr as [->|Hr]; [done|by apply Hbefore].
Qed.

Lemma chain_unfold r :
  chain r = r :: match parentLibrary r with Some p => chain p | None => [] end.
Proof. by destruct r. Qed.

#[local] Instance current_at_or_below_preorder : PreOrder current_at_or_below.
Proof.
  split; [intros s; unfold current_at_or_below; reflexivity|].
  intros s1 s2 s3. unfold current_at_or_below. intros H1 H2. by etrans.
Qed.

Lemma mergeConfig_current_at_or_below host depth config s :
  current_at_or_below s (mergeConfig host depth config s).1.
Proof.
  apply (steps_mergeConfig current_at_or_below);
    try (intros; unfold current_at_or_below; simpl; reflexivity).
  intros li s0 Hparent. unfold current_at_or_below. simpl.
  rewrite (chain_unfold li), Hparent. by apply suffix_cons_r.
Qed.

(** What a call to [load] that passes the duplicate check does to the
    current library.  If it returns normally, it has appended a record whose
    parent is the library that was current before the call, and that
    library is current again.  If it does not return normally although it
    has changed the registry, the current library has not been restored: it
    is the appended record or a record loaded beneath it. *)
Lemma load_currentLibrary_after_call
  host depth libraryName options libraryPath s s' outcome :
  resolveRoot host (js_to_string libraryName) = Some libraryPath →
  find (same_load libraryPath (default_options options))
       (libraryInfos (_libraryLoader s)) = None →
  load host (mergeConfig host depth) libraryName options s = (s', outcome) →
  (outcome = Ok tt →
   currentLibrary (_libraryLoader s') = currentLibrary (_libraryLoader s)
   ∧ ∃ libraryInfo later,
       libraryInfos (_libraryLoader s')
       = libraryInfos (_libraryLoader s) ++ libraryInfo :: later
       ∧ parentLibrary libraryInfo = Some (currentLibrary (_libraryLoader s)))
  ∧ (outcome ≠ Ok tt →
     libraryInfos (_libraryLoader s') ≠ libraryInfos (_libraryLoader s) →
     currentLibrary (_libraryLoader s') ≠ currentLibrary (_libraryLoader s)
     ∧ ∃ libraryInfo,
         parentLibrary libraryInfo = Some (currentLibrary (_libraryLoader s))
         ∧ chain libraryInfo `suffix_of` chain (currentLibrary (_libraryLoader s'))).
Proof.
  intros Hp Hfresh. rewrite load_unfold. unfold getRootDir. rewrite Hp, Hfresh.
  destruct (newLibraryInfo _ _ _ _) as [li| |] eqn:Hli;
    [|intros [= <- <-]; split; [done|intros _ Hreg; by destruct Hreg]..].
  apply newLibraryInfo_fields in Hli as (_ & _ & Hparent). cbv zeta.
  set (entered := enter_library li (push_library li s)).
  assert (∀ failed,
            chain li `suffix_of` chain (currentLibrary (_libraryLoader failed)) →
            currentLibrary (_libraryLoader failed) ≠ currentLibrary (_libraryLoader s)
            ∧ ∃ libraryInfo,
                parentLibrary libraryInfo = Some (currentLibrary (_libraryLoader s))
                ∧ chain libraryInfo
                    `suffix_of` chain (currentLibrary (_libraryLoader failed)))
    as Hfailed.
  { intros failed Hbelow. split; [|by exists li].
    intros Heq. rewrite Heq, (chain_unfold li), Hparent in Hbelow.
    apply suffix_length in Hbelow. simpl in Hbelow. lia. }
  assert (∀ merged,
            libraryInfos (_libraryLoader entered)
              `prefix_of` libraryInfos (_libraryLoader merged) →
            currentLibrary
              (_libraryLoader (enter_library (default li (parentLibrary li)) merged))
            = currentLibrary (_libraryLoader s)
            ∧ ∃ libraryInfo later,
                libraryInfos
                  (_libraryLoader (enter_library (default li (parentLibrary li)) merged))
                = libraryInfos (_libraryLoader s) ++ libraryInfo :: later
                ∧ parentLibrary libraryInfo = Some (currentLibrary (_libraryLoader s)))
    as Hreturned.
  { intros merged [later Hlater]. rewrite Hparent. simpl. split; [done|].
    exists li, later. split; [|done]. rewrite Hlater. simpl. by rewrite <- List.app_assoc. }
  destruct (find (conflicts_with li) _).
  { intros [= <- <-]. split; [done|]. intros _ _. by apply Hfailed. }
  destruct (loadConfigFile _ _ _).2 as [doc| |];
    [|intros [= <- <-]; split; [done|]; intros _ _; by apply Hfailed..].
  destruct (truthy doc).
  - pose proof (mergeConfig_registry_grows host depth doc entered) as Hgrow.
    pose proof (mergeConfig_current_at_or_below host depth doc entered) as Hbelow.
    destruct (mergeConfig host depth doc entered) as [merged [[]| |]];
      intros [= <- <-]; (split; [try done|try done]).
    + intros _. by apply Hreturned.
    + intros _ _. by apply Hfailed.
    + intros _ _. by apply Hfailed.
  - unfold modify. intros [= <- <-]. split; [|done]. intros _. by apply Hreturned.
Qed.

Lemma load_currentLibrary_after_call_witness :
  (currentLibrary (_libraryLoader after_A1) = currentLibrary (_libraryLoader idle)
   ∧ ∃ libraryInfo later,
       libraryInfos (_libraryLoader after_A1)
       = libraryInfos (_libraryLoader idle) ++ libraryInfo :: later
       ∧ parentLibrary libraryInfo = Some (currentLibrary (_libraryLoader idle)))
  ∧ (currentLibrary (_libraryLoader after_conflict) ≠ currentLibrary (_libraryLoader after_A1)
     ∧ ∃ libraryInfo,
         parentLibrary libraryInfo = Some (currentLibrary (_libraryLoader after_A1))
         ∧ chain libraryInfo
             `suffix_of` chain (currentLibrary (_libraryLoader after_conflict))).
Proof.
  split.
  - apply (load_currentLibrary_after_call
             sampleHost 2 (VStr "/libs/A1") VUndef "/libs/A1" idle after_A1 (Ok tt));
      vm_compute; reflexivity.
  - apply (load_currentLibrary_after_call
             sampleHost 2 (VStr "/libs/A2") VUndef "/libs/A2" after_A1 after_conflict
             (load sampleHost (mergeConfig sampleHost 2) (VStr "/libs/A2") VUndef after_A1).2).
    + vm_compute. reflexivity.
    + vm_compute. reflexivity.
    + vm_compute. reflexivity.
    + vm_compute. discriminate.
    + vm_compute. discriminate.
Defined.

(** C1.  The program does not restore the current library on the error
    path, although [load] means to ("Switch back to the parent library") and
    the [currentLibrary] getter documents that outside an [addLibrary] call
    the current library is the root library: [load] has no handler around
    its body, so an exception raised after the insertion skips the restoring
    assignment.  After the version conflict the current library is the
    record just appended, and so it is after the error a configuration
    document raises in [mergeConfig]; in both cases the call is over and the
    current library is not the one that was current before it (in the second
    case, not the root library). *)
Lemma load_keeps_currentLibrary_on_error :
  (let r := load sampleHost (mergeConfig sampleHost 2) (VStr "/libs/A2") VUndef after_A1 in
   (∃ message, r.2 = Throw (VersionConflictError message))
   ∧ libraryInfos (_libraryLoader r.1) = libraryInfos (_libraryLoader after_A1) ++ [record_A2]
   ∧ currentLibrary (_libraryLoader r.1) = record_A2
   ∧ currentLibrary (_libraryLoader r.1) ≠ currentLibrary (_libraryLoader after_A1))
  ∧ (let r := load sampleHost (mergeConfig sampleHost 2) (VStr "/libs/bogus") VUndef idle in
     (∃ message, r.2 = Throw (UnknownOptionError message))
     ∧ libraryInfos (_libraryLoader r.1) = libraryInfos (_libraryLoader idle) ++ [record_bogus]
     ∧ currentLibrary (_libraryLoader r.1) = record_bogus
     ∧ currentLibrary (_libraryLoader r.1) ≠ currentLibrary (_libraryLoader idle)).
Proof.
  split; cbv zeta.
  - split; [eexists; vm_compute; reflexivity|].
    split; [vm_compute; reflexivity|].
    split; [vm_compute; reflexivity|].
    vm_compute. discriminate.
  - split; [eexists; vm_compute; reflexivity|].
    split; [vm_compute; reflexivity|].
    split; [vm_compute; reflexivity|].
    vm_compute. discriminate.
Qed.

(** C3, as the program has it.  When a load passes the duplicate check and
    the registry holds an entry of the same name with another version, the
    load fails with the conflict error.  The message ends with the trace of
    the new record, a blank line, the trace of the first entry of the
    registry that conflicts (no entry before it has the name with another
    version) and a blank line; the state it leaves has the new record
    appended to the registry, after the entry it conflicts with, and made
    current. *)
Theorem load_version_conflict
  host mergeConfig libraryName options libraryPath manifest (i : nat) existing s :
  resolveRoot host (js_to_string libraryName) = Some libraryPath →
  libraryPath ≠ ""%string →
  find (same_load libraryPath (default_options options))
       (libraryInfos (_libraryLoader s)) = None →
  packageJson host libraryPath = Some manifest →
  libraryInfos (_libraryLoader s) !! i = Some existing →
  lib_name existing = pkg_name manifest →
  lib_path existing ≠ Some libraryPath →
  lib_version existing ≠ pkg_version manifest →
  let libraryInfo :=
    {| lib_path := Some libraryPath; lib_options := default_options options;
       parentLibrary := Some (currentLibrary (_libraryLoader s));
       lib_name := pkg_name manifest; lib_version := pkg_version manifest |} in
  ∃ conflictLib before after,
    load host mergeConfig libraryName options s
    = (enter_library libraryInfo (push_library libraryInfo s),
       Throw (VersionConflictError
                (conflict_heading libraryInfo conflictLib
                   +:+ getLibraryChainStackTrace libraryInfo
                   +:+ newline +:+ newline
                   +:+ getLibraryChainStackTrace conflictLib +:+ newline +:+ newline)))
    ∧ libraryInfos (_libraryLoader s) = before ++ conflictLib :: after
    ∧ (∀ r, r ∈ before →
            lib_name r = lib_name libraryInfo → lib_version r = lib_version libraryInfo)
    ∧ lib_name conflictLib = lib_name libraryInfo
    ∧ lib_version conflictLib ≠ lib_version libraryInfo
    ∧ libraryInfos (_libraryLoader (enter_library libraryInfo (push_library libraryInfo s)))
      = libraryInfos (_libraryLoader s) ++ [libraryInfo].
Proof.
  intros Hp Hne Hfresh Hm Hin%list_elem_of_lookup_2 Hname _ Hversion libraryInfo.
  assert (conflicts_with libraryInfo existing = true) as Hc.
  { unfold conflicts_with. simpl. rewrite Hname.
    rewrite bool_decide_eq_true_2 by done. by rewrite bool_decide_eq_false_2. }
  destruct (find_app_first (conflicts_with libraryInfo) _ existing libraryInfo Hin Hc)
    as (c & before & after & Hfind & Hsplit & Hcc & Hbefore).
  exists c, before, after.
  split; [|split; [done|split]].
  - rewrite load_unfold. unfold getRootDir. rewrite Hp, Hfresh.
    unfold newLibraryInfo. rewrite (proj2 (String.eqb_neq _ _) Hne), Hm.
    fold libraryInfo. cbv zeta. by rewrite Hfind.
  - intros r Hr Hrname. specialize (Hbefore r Hr). unfold conflicts_with in Hbefore.
    rewrite bool_decide_eq_true_2 in Hbefore by done. simpl in Hbefore.
    by apply negb_false_iff, bool_decide_eq_true_1 in Hbefore.
  - unfold conflicts_with in Hcc. apply andb_prop in Hcc as [H1 H2].
    apply bool_decide_eq_true_1 in H1. apply negb_true_iff, bool_decide_eq_false_1 in H2.
    done.
Qed.

Lemma load_version_conflict_witness :
  let libraryInfo :=
    {| lib_path := Some "/libs/A3"%string; lib_options := VObj [];
       parentLibrary := Some record_A2;
       lib_name := Some "A"%string; lib_version := Some "3.0"%string |} in
  libraryInfos (_libraryLoader after_conflict) = [record_A1; record_A2]
  ∧ load secondHost (mergeConfig secondHost 2) (VStr "/libs/A3") VUndef after_conflict
    = (enter_library libraryInfo (push_library libraryInfo after_conflict),
       Throw (VersionConflictError
                (conflict_heading libraryInfo record_A1
                   +:+ getLibraryChainStackTrace libraryInfo
                   +:+ newline +:+ newline
                   +:+ getLibraryChainStackTrace record_A1 +:+ newline +:+ newline))).
Proof.
  intros libraryInfo.
  assert (libraryInfos (_libraryLoader after_conflict) = [record_A1; record_A2]) as Hregistry
    by (vm_compute; reflexivity).
  split; [exact Hregistry|].
  destruct (load_version_conflict secondHost (mergeConfig secondHost 2) (VStr "/libs/A3")
              VUndef "/libs/A3"
              {| pkg_name := Some "A"%string; pkg_version := Some "3.0"%string |}
              1 record_A2 after_conflict)
    as (conflictLib & before & after & Hload & Hsplit & Hbefore & _).
  - vm_compute. reflexivity.
  - discriminate.
  - vm_compute. reflexivity.
  - vm_compute. reflexivity.
  - vm_compute. reflexivity.
  - reflexivity.
  - discriminate.
  - discriminate.
  - assert (conflictLib = record_A1) as <-.
    { rewrite Hregistry in Hsplit. destruct before as [|first before].
      - by injection Hsplit as ->.
      - injection Hsplit as <- _.
        assert (lib_version record_A1 = Some "3.0"%string) as Hversion
          by (apply Hbefore; [apply list_elem_of_here|reflexivity]).
        discriminate Hversion. }
    exact Hload.
Defined.

(** The message of that failure names the first entry, at 1.0, although the
    entry at 2.0 conflicts as well. *)
Example conflict_names_the_first_entry :
  (load secondHost (mergeConfig secondHost 2) (VStr "/libs/A3") VUndef after_conflict).2
  = Throw (VersionConflictError
             ("You're trying to load A 3.0, but A 1.0 was already loaded:"
                +:+ newline +:+ newline
                +:+ "    A 3.0" +:+ newline
                +:+ "      └─ loaded by A 2.0" +:+ newline
                +:+ "        └─ loaded by (root)" +:+ newline +:+ newline
                +:+ "    A 1.0" +:+ newline
                +:+ "      └─ loaded by (root)" +:+ newline +:+ newline)).
Proof. vm_compute. reflexivity. Qed.

(** C3 as stated fails when the load does not pass the duplicate check.
    After the failed attempt the registry holds package A at 1.0 and, from
    another path, at 2.0; loading the second path again matches its own
    earlier record and returns at once, without an error, although an entry
    of the same name, another path and another version is in the registry. *)
Lemma load_after_conflict_is_silent :
  (∃ existing,
     libraryInfos (_libraryLoader after_conflict) !! 0%nat = Some existing
     ∧ packageJson sampleHost "/libs/A2"
       = Some {| pkg_name := Some "A"%string; pkg_version := Some "2.0"%string |}
     ∧ lib_name existing = Some "A"%string
     ∧ lib_path existing ≠ Some "/libs/A2"%string
     ∧ lib_version existing ≠ Some "2.0"%string)
  ∧ load sampleHost (mergeConfig sampleHost 2) (VStr "/libs/A2") VUndef after_conflict
    = (after_conflict, Ok tt).
Proof.
  split.
  - exists record_A1. repeat split; try (vm_compute; reflexivity); vm_compute; discriminate.
  - vm_compute. reflexivity.
Qed.

(** C4, as the program has it.  After a load that returned normally, a second
    load of the same library with options whose JSON text is the same returns
    at once and leaves the whole state as it was: the registry, the
    accumulated configuration and the count of [mergeConfig] entries. *)
Theorem load_again_is_noop host depth depth' libraryName options1 options2 s s1 :
  load host (mergeConfig host depth) libraryName options1 s = (s1, Ok tt) →
  JSON_stringify (default_options options1) = JSON_stringify (default_options options2) →
  load host (mergeConfig host depth') libraryName options2 s1 = (s1, Ok tt).
Proof.
  intros Hload Hjson.
  assert (∀ p, getRootDir host libraryName = Ok p →
               is_Some (find (same_load p (default_options options1))
                             (libraryInfos (_libraryLoader s1))) →
               load host (mergeConfig host depth') libraryName options2 s1 = (s1, Ok tt))
    as Hdone.
  { intros p Hp [lib Hlib]. rewrite load_unfold, Hp.
    rewrite <- (find_ext (same_load p (default_options options1))); [by rewrite Hlib|].
    intros lib'. by apply same_load_stringify. }
  rewrite load_unfold in Hload.
  destruct (getRootDir host libraryName) as [p| |] eqn:Hp; try done.
  destruct (find (same_load _ _) _) eqn:Hfind.
  { injection Hload as <-. apply (Hdone p); [done|]. by rewrite Hfind. }
  destruct (newLibraryInfo _ _ _ _) as [li| |] eqn:Hli; try done.
  apply newLibraryInfo_fields in Hli as (Hpath & Hoptions & Hparent). cbv zeta in Hload.
  destruct (find (conflicts_with li) _); [done|].
  destruct (loadConfigFile _ _ _).2 as [doc| |]; try done.
  set (entered := enter_library li (push_library li s)) in *.
  assert (same_load p (default_options options1) li = true) as Hsame.
  { unfold same_load. rewrite Hpath, Hoptions. by rewrite !bool_decide_eq_true_2. }
  assert (∀ merged,
            libraryInfos (_libraryLoader entered)
              `prefix_of` libraryInfos (_libraryLoader merged) →
            (enter_library (default li (parentLibrary li)) merged, Ok ()) = (s1, Ok ()) →
            load host (mergeConfig host depth') libraryName options2 s1 = (s1, Ok tt))
    as Hend.
  { intros merged Hgrow [= <-]. apply (Hdone p); [done|].
    apply (find_is_Some _ _ li); [|done]. simpl.
    eapply elem_of_prefix; [|exact Hgrow]. simpl. set_solver. }
  destruct (truthy doc).
  - pose proof (mergeConfig_registry_grows host depth doc entered) as Hgrow.
    destruct (mergeConfig host depth doc entered) as [merged [[]| |]]; try done.
    exact (Hend merged Hgrow Hload).
  - unfold modify in Hload. refine (Hend _ _ Hload). done.
Qed.

Lemma load_again_is_noop_witness :
  load sampleHost (mergeConfig sampleHost 3) (VStr "/libs/L") (VObj []) after_L
  = (after_L, Ok tt).
Proof.
  apply (load_again_is_noop sampleHost 2 3 (VStr "/libs/L") VUndef (VObj []) after_A1).
  - vm_compute. reflexivity.
  - vm_compute. reflexivity.
Defined.

(** C4 as stated fails twice over.  Two option objects that differ only in
    the order of their keys are structurally equal, but their JSON texts
    differ: the second load appends a second record and merges the
    library's document a second time.  And a library without a
    configuration file loads normally without [mergeConfig] being entered
    at all, so the two calls do not make one invocation between them. *)
Lemma load_again_with_permuted_keys_merges_again :
  (let first := load sampleHost (mergeConfig sampleHost 2) (VStr "/libs/L")
                     permuted_options_1 idle in
   let second := load sampleHost (mergeConfig sampleHost 2) (VStr "/libs/L")
                      permuted_options_2 first.1 in
   structurally_equal permuted_options_1 permuted_options_2 = true
   ∧ first.2 = Ok tt ∧ second.2 = Ok tt
   ∧ length (libraryInfos (_libraryLoader first.1)) = 1%nat
   ∧ length (libraryInfos (_libraryLoader second.1)) = 2%nat
   ∧ mergeConfig_callCount first.1 = 1%nat
   ∧ mergeConfig_callCount second.1 = 2%nat)
  ∧ (let first := load sampleHost (mergeConfig sampleHost 2) (VStr "/libs/bare") VUndef idle in
     let second := load sampleHost (mergeConfig sampleHost 2) (VStr "/libs/bare") VUndef
                        first.1 in
     first.2 = Ok tt ∧ second.2 = Ok tt
     ∧ mergeConfig_callCount idle = 0%nat
     ∧ mergeConfig_callCount second.1 = 0%nat).
Proof.
  split; cbv zeta; repeat split; vm_compute; reflexivity.
Qed.

(** ** Load chains *)

Lemma LibraryInfo_chain_ind (P : LibraryInfo → Prop) :
  (∀ r, parentLibrary r = None → P r) →
  (∀ r p, parentLibrary r = Some p → P p → P r) →
  ∀ r, P r.
Proof.
  intros Hroot Hstep. fix IH 1. intros [path options [p|] name version].
  - apply (Hstep _ p); [reflexivity|apply IH].
  - by apply Hroot.
Qed.

Lemma chain_lines_unfold r indent isFirstLine :
  chain_lines r indent isFirstLine
  = (spaces indent +:+ (if isFirstLine then label r else "└─ loaded by " +:+ label r))
      :: match parentLibrary r with
         | Some p => chain_lines p (indent + 2) false
         | None => []
         end.
Proof. by destruct r. Qed.

Lemma chain_lines_ancestors r indent :
  chain_lines r indent false
  = imap (λ i a, spaces (indent + 2 * i) +:+ "└─ loaded by " +:+ label a) (chain r).
Proof.
  revert indent. induction r as [r Hr|r p Hr IH] using LibraryInfo_chain_ind; intros indent;
    rewrite chain_lines_unfold, chain_unfold, Hr; simpl.
  - by rewrite Nat.add_0_r.
  - rewrite Nat.add_0_r. f_equal. rewrite IH. apply imap_ext. intros i a _. simpl.
    by replace (indent + 2 + (i + (i + 0))) with (indent + S (i + S (i + 0))) by lia.
Qed.

Lemma spaces_indentation n : spaces n = indentation n.
Proof.
  unfold spaces, indentation. induction n as [|n IH]; [done|].
  simpl. rewrite <- IH. by destruct n.
Qed.

Lemma join_concat sep parts : join sep parts = String.concat sep parts.
Proof.
  induction parts as [|p parts IH]; [done|]. simpl. rewrite IH. by destruct parts.
Qed.

Lemma trace_line_S i a :
  trace_line (S i) a = spaces (6 + 2 * i) +:+ "└─ loaded by " +:+ label a.
Proof.
  unfold trace_line. rewrite <- spaces_indentation.
  by replace (4 + 2 * S i) with (6 + 2 * i) by lia.
Qed.

Lemma chain_links r i a b :
  chain r !! i = Some a → chain r !! S i = Some b → parentLibrary a = Some b.
Proof.
  revert i. induction r as [r Hr|r p Hr IH] using LibraryInfo_chain_ind; intros i;
    rewrite chain_unfold, Hr.
  - by destruct i.
  - destruct i as [|i]; simpl.
    + intros [= <-]. rewrite chain_unfold. simpl. intros [= <-]. done.
    + apply IH.
Qed.

Lemma last_chain_child r p :
  parentLibrary r = Some p → last (chain r) = last (chain p).
Proof.
  intros Hr. rewrite (chain_unfold r), Hr, (chain_unfold p). done.
Qed.


#[local] Instance keeps_rooted_preorder : PreOrder keeps_rooted.
Proof.
  split; [intros s H; exact H|]. intros s1 s2 s3 H12 H23 H. by apply H23, H12.
Qed.

Lemma mergeConfig_keeps_rooted host depth config s :
  rooted s → rooted (mergeConfig host depth config s).1.
Proof.
  apply (steps_mergeConfig keeps_rooted);
    try (unfold keeps_rooted, rooted; simpl; intros; assumption).
  - intros li s0 Hparent [Hcur Hreg]. split; simpl.
    + unfold ends_at_root. by rewrite (last_chain_child _ _ Hparent).
    + apply Forall_app. split; [done|]. apply Forall_singleton.
      unfold ends_at_root. by rewrite (last_chain_child _ _ Hparent).
  - intros s0 s' H Hs0. destruct (H Hs0) as [_ Hreg]. destruct Hs0 as [Hcur _].
    by split.
Qed.

Lemma load_keeps_rooted host depth libraryName options s :
  rooted s → rooted (load host (mergeConfig host depth) libraryName options s).1.
Proof.
  apply (steps_load keeps_rooted);
    try (unfold keeps_rooted, rooted; simpl; intros; assumption).
  - intros li s0 Hparent [Hcur Hreg]. split; simpl.
    + unfold ends_at_root. by rewrite (last_chain_child _ _ Hparent).
    + apply Forall_app. split; [done|]. apply Forall_singleton.
      unfold ends_at_root. by rewrite (last_chain_child _ _ Hparent).
  - intros s0 s' H Hs0. destruct (H Hs0) as [_ Hreg]. destruct Hs0 as [Hcur _].
    by split.
  - intros document s0 Hs0. by apply mergeConfig_keeps_rooted.
Qed.

Lemma reachable_rooted host s : reachable host s → rooted s.
Proof.
  induction 1 as [depth contextName options| | | | | |].
  - unfold constructor. set (this := {| context := _ |}).
    assert (rooted this) as Hthis by (split; [reflexivity|constructor]).
    destruct (assoc "root" options) as [[]|]; try done;
      unfold addLibrary; by apply load_keeps_rooted.
  - by apply load_keeps_rooted.
  - by apply mergeConfig_keeps_rooted.
  - unfold addBabelPlugin. run. by destruct (find _ _).
  - by destruct (setOption_cases name value s) as [(_ & _ & ->)|[e ->]].
  - done.
  - done.
Qed.

(** C9.  The trace of a record, be it a record of the registry or the
    current library (the sentinel when the loader is idle), is its chain (the
    record, its parent, and so on), one line for each, the lines separated
    by a line feed: line [i] starts with [4 + 2 i] space characters, two
    more than the line before it, the first line is the record's name and
    version, every later line is the words "loaded by" followed by the
    ancestor's name and version (the version, with the space before it, only
    when it is not empty), and the last line is the sentinel's. *)
Theorem getLibraryChainStackTrace_format host s r :
  reachable host s →
  r ∈ currentLibrary (_libraryLoader s) :: libraryInfos (_libraryLoader s) →
  getLibraryChainStackTrace r = String.concat line_break (imap trace_line (chain r))
  ∧ head (chain r) = Some r
  ∧ (∀ i a b, chain r !! i = Some a → chain r !! S i = Some b → parentLibrary a = Some b)
  ∧ last (chain r) = Some rootLibrary
  ∧ last (imap trace_line (chain r))
    = Some (trace_line (length (chain r) - 1) rootLibrary).
Proof.
  intros Hs Hr.
  assert (last (chain r) = Some rootLibrary) as Hlast.
  { apply reachable_rooted in Hs as [Hcur Hreg].
    apply elem_of_cons in Hr as [->|Hr]; [done|].
    by apply (proj1 (Forall_forall _ _) Hreg). }
  split; [|split; [|split; [|split]]].
  - unfold getLibraryChainStackTrace. rewrite join_concat.
    change newline with line_break. f_equal.
    rewrite chain_lines_unfold, (chain_unfold r).
    destruct (parentLibrary r) as [p|]; [|reflexivity].
    rewrite chain_lines_ancestors.
    change (imap trace_line (r :: chain p))
      with (trace_line 0 r :: imap (trace_line ∘ S) (chain p)).
    apply (f_equal2 cons); [reflexivity|].
    apply imap_ext. intros i a _. unfold compose. by rewrite trace_line_S.
  - by rewrite chain_unfold.
  - apply chain_links.
  - done.
  - rewrite !last_lookup in *. rewrite length_imap, list_lookup_imap.
    replace (Nat.pred (length (chain r))) with (length (chain r) - 1) in * by lia.
    by rewrite Hlast.
Qed.

Lemma getLibraryChainStackTrace_format_witness :
  getLibraryChainStackTrace record_A2
  = String.concat line_break (imap trace_line (chain record_A2))
  ∧ head (chain record_A2) = Some record_A2
  ∧ (∀ i a b, chain record_A2 !! i = Some a → chain record_A2 !! S i = Some b →
              parentLibrary a = Some b)
  ∧ last (chain record_A2) = Some rootLibrary
  ∧ last (imap trace_line (chain record_A2))
    = Some (trace_line (length (chain record_A2) - 1) rootLibrary).
Proof.
  apply (getLibraryChainStackTrace_format sampleHost after_conflict record_A2).
  - apply (reachable_addLibrary sampleHost after_A1 2 (VStr "/libs/A2") VUndef).
    apply (reachable_addLibrary sampleHost idle 2 (VStr "/libs/A1") VUndef).
    apply (reachable_new sampleHost 0 (Some "node"%string) [("root"%string, VNull)]).
  - replace (libraryInfos (_libraryLoader after_conflict)) with [record_A1; record_A2]
      by (vm_compute; reflexivity).
    apply list_elem_of_further, list_elem_of_further, list_elem_of_here.
Defined.

Example trace_of_the_conflicting_record :
  getLibraryChainStackTrace record_A2
  = ("    A 2.0" +:+ newline +:+ "      └─ loaded by (root)")%string.
Proof. vm_compute. reflexivity. Qed.

(** ** Babel plugins *)

Lemma with_babelPlugins_nil s : with_babelPlugins (λ l, l ++ []) s = s.
Proof. destruct s. unfold with_babelPlugins. simpl. by rewrite app_nil_r. Qed.

Lemma with_babelPlugins_app a b s :
  with_babelPlugins (λ l, l ++ b) (with_babelPlugins (λ l, l ++ a) s)
  = with_babelPlugins (λ l, l ++ a ++ b) s.
Proof. unfold with_babelPlugins. simpl. by rewrite <- List.app_assoc. Qed.

Lemma addBabelPlugin_cases plugin options s :
  (∃ item, item ∈ _babelPlugins s ∧ strict_eq item.1 plugin = true
           ∧ addBabelPlugin plugin options s = (s, Ok tt))
  ∨ ((∀ item, item ∈ _babelPlugins s → strict_eq item.1 plugin = false)
     ∧ addBabelPlugin plugin options s
       = (with_babelPlugins (λ l, l ++ [(plugin, options)]) s, Ok tt)).
Proof.
  unfold addBabelPlugin. run.
  destruct (find _ _) as [item|] eqn:Hfind.
  - left. exists item. apply find_some in Hfind as [Hin Heq].
    by rewrite list_elem_of_In.
  - right. split; [|done]. intros item Hin%list_elem_of_In.
    exact (find_none _ _ Hfind item Hin).
Qed.

(** C8.  A run of [addBabelPlugin] calls always returns normally and
    changes nothing but the plugin list.  The list it leaves is the list it
    found followed by some of the calls in the order they were made (so an
    entry never moves and never changes), and every call is in it, either as
    its own pair or as an earlier entry with the identical reference.  A
    call whose reference is identical to that of an entry already there
    leaves the state as it is, and any other call puts its pair at the end
    of the list. *)
Theorem addBabelPlugin_first_registration_wins (calls : list (JsVal * JsVal)) s :
  (∃ added,
     forEach (λ c, addBabelPlugin c.1 c.2) calls s
     = (with_babelPlugins (λ l, l ++ added) s, Ok tt)
     ∧ _babelPlugins (forEach (λ c, addBabelPlugin c.1 c.2) calls s).1
       = _babelPlugins s ++ added
     ∧ added `sublist_of` calls
     ∧ (∀ c, c ∈ calls →
             ∃ item, item ∈ _babelPlugins s ++ added
                     ∧ (item = c ∨ strict_eq item.1 c.1 = true)))
  ∧ (∀ plugin options item,
       item ∈ _babelPlugins s → strict_eq item.1 plugin = true →
       addBabelPlugin plugin options s = (s, Ok tt))
  ∧ (∀ plugin options,
       (∀ item, item ∈ _babelPlugins s → strict_eq item.1 plugin = false) →
       addBabelPlugin plugin options s
       = (with_babelPlugins (λ l, l ++ [(plugin, options)]) s, Ok tt)
       ∧ _babelPlugins (addBabelPlugin plugin options s).1
         = _babelPlugins s ++ [(plugin, options)]).
Proof.
  split; [|split].
  - revert s. induction calls as [|[plugin options] calls IH]; intros s.
    + exists []. simpl. unfold ret. rewrite with_babelPlugins_nil, app_nil_r.
      repeat split; try done. intros c Hc. by apply elem_of_nil in Hc.
    + simpl. unfold bind.
      destruct (addBabelPlugin_cases plugin options s)
        as [(item & Hitem & Heq & ->)|[_ ->]].
      * destruct (IH s) as (added & Hrun & Hlist & Hsub & Hall). exists added.
        rewrite Hrun in *. split; [done|]. split; [done|]. split; [by apply sublist_cons|].
        intros c Hc. apply elem_of_cons in Hc as [->|Hc]; [|by apply Hall].
        exists item. split; [apply elem_of_app; by left|by right].
      * destruct (IH (with_babelPlugins (λ l, l ++ [(plugin, options)]) s))
          as (added & Hrun & Hlist & Hsub & Hall).
        exists ((plugin, options) :: added). rewrite Hrun in *.
        simpl in Hall. rewrite <- List.app_assoc in Hall.
        split; [by rewrite with_babelPlugins_app|].
        split; [simpl; by rewrite <- List.app_assoc|].
        split; [by apply sublist_skip|].
        intros c Hc. apply elem_of_cons in Hc as [->|Hc]; [|by apply Hall].
        exists (plugin, options). split; [|by left].
        apply elem_of_app. right. apply list_elem_of_here.
  - intros plugin options item Hin Heq.
    destruct (addBabelPlugin_cases plugin options s) as [(_ & _ & _ & ->)|[Hnone _]]; [done|].
    specialize (Hnone item Hin). congruence.
  - intros plugin options Hnone.
    destruct (addBabelPlugin_cases plugin options s) as [(item & Hin & Heq & _)|[_ ->]];
      [|done].
    specialize (Hnone item Hin). congruence.
Qed.

Lemma addBabelPlugin_first_registration_wins_witness :
  addBabelPlugin (VStr "plugin1") (VObj [("late"%string, VBool true)]) after_plugins
  = (after_plugins, Ok tt)
  ∧ _babelPlugins
      (addBabelPlugin (VStr "plugin3") (VObj [("late"%string, VBool true)]) after_plugins).1
    = _babelPlugins after_plugins ++ [(VStr "plugin3", VObj [("late"%string, VBool true)])].
Proof.
  destruct (addBabelPlugin_first_registration_wins [] after_plugins)
    as (_ & Hsame & Hother).
  split.
  - apply (Hsame (VStr "plugin1") (VObj [("late"%string, VBool true)])
             (VStr "plugin1", VObj [])).
    + replace (_babelPlugins after_plugins)
        with [(VStr "plugin1", VObj []);
              (VStr "plugin2", VObj [("option"%string, VBool true)])]
        by (vm_compute; reflexivity).
      apply list_elem_of_here.
    + vm_compute. reflexivity.
  - apply (Hother (VStr "plugin3") (VObj [("late"%string, VBool true)])).
    replace (_babelPlugins after_plugins)
      with [(VStr "plugin1", VObj []);
            (VStr "plugin2", VObj [("option"%string, VBool true)])]
      by (vm_compute; reflexivity).
    intros item Hitem.
    apply elem_of_cons in Hitem as [->|Hitem]; [reflexivity|].
    apply elem_of_cons in Hitem as [->|Hitem]; [reflexivity|].
    by apply elem_of_nil in Hitem.
Defined.

Example babelPlugins_of_a_run :
  _babelPlugins
    (forEach (λ c, addBabelPlugin c.1 c.2)
             [(VStr "plugin1", VObj []); (VStr "plugin2", VObj [("option"%string, VBool true)]);
              (VStr "plugin1", VObj [("late"%string, VBool true)])] idle).1
  = [(VStr "plugin1", VObj []); (VStr "plugin2", VObj [("option"%string, VBool true)])].
Proof. vm_compute. reflexivity. Qed.

(** ** Merging a document *)

Lemma mergeConfig_of_nothing host depth config s :
  config = VUndef ∨ (∃ id, config = VNative id) →
  mergeConfig host (S depth) config s = (with_callCount S s, Ok tt).
Proof. intros [->|[id ->]]; reflexivity. Qed.

Lemma object_prototype_inert k :
  object_prototype k = VUndef ∨ ∃ id, object_prototype k = VNative id.
Proof.
  unfold object_prototype. destruct (bool_decide _); [right; by eexists|].
  destruct (String.eqb k "__proto__"); [right; by eexists|by left].
Qed.

Lemma mergeConfig_unfold host depth config :
  mergeConfig host (S depth) config
  = (let config := default_options config in
     modify (with_callCount S) ;;
     let! libraries := lift (get_prop config "libraries") in
     _forEachConfig libraries (addLibrary host (mergeConfig host depth)) ;;
     let! decorators := lift (get_prop config "decorators") in
     _forEachConfig decorators merge_decorator ;;
     let! components := lift (get_prop config "components") in
     _forEachConfig components merge_component ;;
     let! babelPlugins := lift (get_prop config "babelPlugins") in
     _forEachConfig babelPlugins addBabelPlugin ;;
     let! options := lift (get_prop config "options") in
     _forEachConfig options setOption ;;
     let! context_ := lift (get_prop config "context") in
     if truthy context_ then
       let! this := get in
       let! nested := lift (get_computed context_ (context this)) in
       mergeConfig host depth nested
     else ret tt).
Proof. reflexivity. Qed.

(** The names the program reads from documents and declarations are not
    names of [Object.prototype]. *)
Ltac own_keys_only :=
  repeat match goal with
         | |- context [object_prototype ?k] => change (object_prototype k) with VUndef
         end.

Ltac evaluate :=
  repeat (unfold bind, modify, lift, get, ret;
          cbn -[mergeConfig object_prototype merge_decorator merge_component
                setOption addBabelPlugin load];
          own_keys_only).

Ltac enter_mergeConfig := rewrite mergeConfig_unfold; evaluate.

(** Binds nest to the right, and agree when their continuations agree. *)
Lemma bind_assoc {A B C} (m : M A) (f : A → M B) (g : B → M C) s :
  bind (bind m f) g s = bind m (λ x, bind (f x) g) s.
Proof. unfold bind. by destruct (m s) as [s' [a| |]]. Qed.

Lemma bind_ext {A B} (m : M A) (f g : A → M B) s :
  (∀ a s', f a s' = g a s') → bind m f s = bind m g s.
Proof. intros H. unfold bind. destruct (m s) as [s' [a| |]]; [apply H|done..]. Qed.

Lemma assoc_app k (l1 l2 : list (string * JsVal)) :
  assoc k (l1 ++ l2) = match assoc k l1 with Some v => Some v | None => assoc k l2 end.
Proof.
  induction l1 as [|[k' v] l1 IH]; simpl; [by destruct (assoc k l2)|].
  by destruct (String.eqb k k').
Qed.

#[local] Instance same_context_preorder : PreOrder same_context.
Proof.
  split; [by intros s|]. intros s1 s2 s3. unfold same_context. congruence.
Qed.

Lemma mergeConfig_same_context host depth config s :
  context (mergeConfig host depth config s).1 = context s.
Proof. by apply (steps_mergeConfig same_context). Qed.

Lemma get_prop_beside_context props c k :
  String.eqb k "context" = false →
  get_prop (VObj (props ++ [("context"%string, c)])) k = get_prop (VObj props) k.
Proof.
  intros Hk. unfold get_prop. rewrite assoc_app. simpl. rewrite Hk.
  by destruct (assoc k props).
Qed.

Lemma get_prop_context props c :
  assoc "context" props = None →
  get_prop (VObj (props ++ [("context"%string, c)])) "context" = Ok c.
Proof. intros H. unfold get_prop. by rewrite assoc_app, H. Qed.

(** A document with a [context] section is the document without it,
    followed by the section of the instance's context. *)
Lemma mergeConfig_with_context host depth props sections s :
  assoc "context" props = None →
  mergeConfig host (S depth) (VObj (props ++ [("context"%string, VObj sections)])) s
  = (mergeConfig host (S depth) (VObj props) ;;
     let! this := get in
     let! nested := lift (get_prop (VObj sections) (context this)) in
     mergeConfig host depth nested) s.
Proof.
  intros Hcontext.
  rewrite (mergeConfig_unfold host depth (VObj props)),
    (mergeConfig_unfold host depth (VObj (props ++ _))).
  cbv zeta. unfold default_options.
  rewrite (get_prop_beside_context props _ "libraries"),
    (get_prop_beside_context props _ "decorators"),
    (get_prop_beside_context props _ "components"),
    (get_prop_beside_context props _ "babelPlugins"),
    (get_prop_beside_context props _ "options") by reflexivity.
  rewrite (get_prop_context props _ Hcontext).
  repeat (rewrite bind_assoc; apply bind_ext; intros ? ?).
  replace (get_prop (VObj props) "context") with (Ok VUndef)
    by (unfold get_prop; by rewrite Hcontext).
  reflexivity.
Qed.

(** C6.  A document's [context] section is read after its other sections
    have been merged, and what is then merged, by the whole of
    [mergeConfig], is the nested document filed under the instance's own
    context: a document filed under any other key is not merged at all,
    and when no document is filed under the context nothing follows but the
    count of the call.  So with the document of the claim, whose base
    options set [regenerator] to [false] and whose [webpack] context sets it
    to [true], [getOption('regenerator')] is [true] when the instance's
    context is "webpack" and [false] for every other context, "node" among
    them. *)
Theorem context_scoping host depth props sections s :
  assoc "context" props = None →
  (∀ nested,
     assoc (context s) sections = Some nested →
     mergeConfig host (S (S depth)) (VObj (props ++ [("context"%string, VObj sections)])) s
     = (mergeConfig host (S (S depth)) (VObj props) ;; mergeConfig host (S depth) nested) s)
  ∧ (assoc (context s) sections = None →
     mergeConfig host (S (S depth)) (VObj (props ++ [("context"%string, VObj sections)])) s
     = (mergeConfig host (S (S depth)) (VObj props) ;; modify (with_callCount S)) s)
  ∧ (inherits_hasOwnProperty s →
     is_Some (_options s !! "regenerator"%string) →
     ∃ s', mergeConfig host (S (S depth)) context_document s = (s', Ok tt)
           ∧ getOption (VStr "regenerator") s'
             = (s', Ok (VBool (bool_decide (context s = "webpack"%string))))).
Proof.
  intros Hcontext.
  split; [|split].
  - intros nested Hnested. rewrite mergeConfig_with_context by done.
    unfold bind, get, lift.
    pose proof (mergeConfig_same_context host (S (S depth)) (VObj props) s) as Hsame.
    destruct (mergeConfig host (S (S depth)) (VObj props) s) as [s1 [[]| |]]; try done.
    simpl in Hsame. unfold get_prop. by rewrite Hsame, Hnested.
  - intros Hnone. rewrite mergeConfig_with_context by done.
    unfold bind, get, lift.
    pose proof (mergeConfig_same_context host (S (S depth)) (VObj props) s) as Hsame.
    destruct (mergeConfig host (S (S depth)) (VObj props) s) as [s1 [[]| |]]; try done.
    simpl in Hsame. unfold get_prop. rewrite Hsame, Hnone.
    apply mergeConfig_of_nothing, object_prototype_inert.
  - intros Hinherits Hv. unfold inherits_hasOwnProperty in Hinherits.
    unfold context_document. enter_mergeConfig.
    rewrite setOption_known by done. evaluate.
    destruct (String.eqb_spec (context s) "webpack") as [Hc|Hc].
    + rewrite bool_decide_eq_true_2 by done.
      enter_mergeConfig.
      rewrite setOption_known;
        [|simpl; by rewrite lookup_insert_ne|simpl; by rewrite lookup_insert_eq].
      evaluate.
      eexists. split; [reflexivity|].
      unfold getOption, bind, get, ret. cbn. by rewrite lookup_insert_eq.
    + rewrite bool_decide_eq_false_2 by done.
      rewrite mergeConfig_of_nothing by apply object_prototype_inert.
      eexists. split; [reflexivity|].
      unfold getOption, bind, get, ret. cbn. by rewrite lookup_insert_eq.
Qed.

Lemma context_scoping_witness :
  mergeConfig sampleHost 2 context_document idle_webpack
  = (mergeConfig sampleHost 2 (VObj [("options"%string, VObj [("regenerator"%string, VBool false)])]) ;;
     mergeConfig sampleHost 1 (VObj [("options"%string, VObj [("regenerator"%string, VBool true)])]))
      idle_webpack
  ∧ mergeConfig sampleHost 2 context_document idle
    = (mergeConfig sampleHost 2 (VObj [("options"%string, VObj [("regenerator"%string, VBool false)])]) ;;
       modify (with_callCount S)) idle
  ∧ mergeConfig sampleHost 2
      (VObj [("context"%string,
              VObj [("webpack"%string, VObj [("decorators"%string, VArr [VStr "Packed"])]);
                    ("node"%string, VObj [("decorators"%string, VArr [VStr "Store"])])])]) idle
    = (mergeConfig sampleHost 2 (VObj []) ;;
       mergeConfig sampleHost 1 (VObj [("decorators"%string, VArr [VStr "Store"])])) idle
  ∧ (∃ s', mergeConfig sampleHost 2 context_document idle_webpack = (s', Ok tt)
           ∧ getOption (VStr "regenerator") s'
             = (s', Ok (VBool (bool_decide (context idle_webpack = "webpack"%string)))))
  ∧ (∃ s', mergeConfig sampleHost 2 context_document idle = (s', Ok tt)
           ∧ getOption (VStr "regenerator") s'
             = (s', Ok (VBool (bool_decide (context idle = "webpack"%string))))).
Proof.
  split; [|split; [|split; [|split]]].
  - apply (proj1 (context_scoping sampleHost 0
                    [("options"%string, VObj [("regenerator"%string, VBool false)])]
                    [("webpack"%string,
                      VObj [("options"%string, VObj [("regenerator"%string, VBool true)])])]
                    idle_webpack eq_refl)).
    vm_compute. reflexivity.
  - apply (proj1 (proj2 (context_scoping sampleHost 0
                    [("options"%string, VObj [("regenerator"%string, VBool false)])]
                    [("webpack"%string,
                      VObj [("options"%string, VObj [("regenerator"%string, VBool true)])])]
                    idle eq_refl))).
    vm_compute. reflexivity.
  - apply (proj1 (context_scoping sampleHost 0 []
                    [("webpack"%string, VObj [("decorators"%string, VArr [VStr "Packed"])]);
                     ("node"%string, VObj [("decorators"%string, VArr [VStr "Store"])])]
                    idle eq_refl)).
    vm_compute. reflexivity.
  - apply (proj2 (proj2 (context_scoping sampleHost 0 [] [] idle_webpack eq_refl))).
    + vm_compute. reflexivity.
    + exists (VBool false). vm_compute. reflexivity.
  - apply (proj2 (proj2 (context_scoping sampleHost 0 [] [] idle eq_refl))).
    + vm_compute. reflexivity.
    + exists (VBool false). vm_compute. reflexivity.
Defined.

Example regenerator_under_webpack_and_node :
  (getOption (VStr "regenerator") (mergeConfig sampleHost 2 context_document idle_webpack).1).2
  = Ok (VBool true)
  ∧ (getOption (VStr "regenerator") (mergeConfig sampleHost 2 context_document idle).1).2
    = Ok (VBool false).
Proof. split; vm_compute; reflexivity. Qed.

(** ** Declarations *)

Lemma default_module_export_object name d s :
  default_module_export name (VObj d) s
  = (s, Ok (VObj (with_module_export
                    (of_name (lib_name (currentLibrary (_libraryLoader s)))) name d))).
Proof.
  unfold default_module_export, with_module_export, bind, get, lift.
  cbn -[object_prototype]. own_keys_only.
  rewrite assoc_set_ne by done.
  by destruct (assoc "module" d), (assoc "export" d).
Qed.

(** [merge_decorator] on an object literal, with its binds carried out. *)
Lemma merge_decorator_object name d s :
  let library := of_name (lib_name (currentLibrary (_libraryLoader s))) in
  let d2 := with_module_export library name d in
  merge_decorator name (VObj d) s
  = match assoc "inherits" d with
    | Some inherits =>
        if truthy inherits then
          match (match inherits with
                 | VStr _ => VObj [("export"%string, inherits)]
                 | _ => inherits
                 end) with
          | VObj parent =>
              (with_decorators
                 (insert (js_to_string name)
                    (VObj (assoc_set "inherits"
                             (VObj (assoc_set "module"
                                      (js_or (default VUndef (assoc "module" parent)) library)
                                      parent)) d2))) s, Ok tt)
          | VArr _ | VNative _ => (s, Throw NotModelled)
          | _ => (s, Throw TypeError)
          end
        else (with_decorators (insert (js_to_string name) (VObj d2)) s, Ok tt)
    | None => (with_decorators (insert (js_to_string name) (VObj d2)) s, Ok tt)
    end.
Proof.
  intros library d2. unfold merge_decorator. unfold bind at 1, get at 1.
  unfold bind at 1. rewrite default_module_export_object. fold library. fold d2.
  unfold bind, lift, get, ret, addDecorator, modify. cbn -[object_prototype]. own_keys_only.
  unfold d2, with_module_export. rewrite !assoc_set_ne by done.
  destruct (assoc "inherits" d) as [inherits|]; [|done].
  destruct inherits as [| |[]|n|base|id|items|parent]; cbn -[object_prototype]; try done.
  - by destruct (n =? 0)%Z.
  - by destruct (String.eqb base "").
Qed.


Lemma mergeConfig_decorators_mapping host depth name declaration s :
  mergeConfig host (S depth) (VObj [("decorators"%string, VObj [(name, declaration)])]) s
  = match merge_decorator (VStr name) declaration (with_callCount S s) with
    | (s', Ok _) => (s', Ok tt)
    | (s', Throw e) => (s', Throw e)
    | (s', Diverge) => (s', Diverge)
    end.
Proof.
  enter_mergeConfig. rewrite String.eqb_refl. evaluate.
  destruct (merge_decorator _ _ _) as [s' [[]| |]]; reflexivity.
Qed.

Lemma mergeConfig_decorators_bare host depth name s :
  name ≠ ""%string →
  mergeConfig host (S depth) (VObj [("decorators"%string, VArr [VStr name])]) s
  = match merge_decorator (VStr name) (VObj []) (with_callCount S s) with
    | (s', Ok _) => (s', Ok tt)
    | (s', Throw e) => (s', Throw e)
    | (s', Diverge) => (s', Diverge)
    end.
Proof.
  intros Hname. enter_mergeConfig. rewrite (proj2 (String.eqb_neq _ _) Hname).
  evaluate.
  destruct (merge_decorator _ _ _) as [s' [[]| |]]; reflexivity.
Qed.

(** C7, as the program has it.  For a decorator whose declaration is an
    object, merged while [library] is the name of the current library: a
    missing [module] becomes [library], a missing [export] becomes the
    decorator's own name, an [inherits] that is a non-empty string [base]
    becomes the object with [export] [base] and [module] [library], and an
    [inherits] object without [module] gets [module] [library] and keeps its
    other properties.  A decorator given by its bare name in the sequence
    form becomes the object with [module] [library] and [export] its name. *)
Theorem decorator_defaults host depth s name declaration :
  let library := of_name (lib_name (currentLibrary (_libraryLoader s))) in
  inherits_supported declaration = true →
  ∃ merged,
    mergeConfig host (S depth)
      (VObj [("decorators"%string, VObj [(name, VObj declaration)])]) s
    = (with_decorators (insert name (VObj merged)) (with_callCount S s), Ok tt)
    ∧ (assoc "module" declaration = None → assoc "module" merged = Some library)
    ∧ (assoc "export" declaration = None → assoc "export" merged = Some (VStr name))
    ∧ (∀ base, assoc "inherits" declaration = Some (VStr base) → base ≠ ""%string →
               assoc "inherits" merged
               = Some (VObj [("export"%string, VStr base); ("module"%string, library)]))
    ∧ (∀ parent, assoc "inherits" declaration = Some (VObj parent) →
                 assoc "module" parent = None →
                 ∃ parent', assoc "inherits" merged = Some (VObj parent')
                            ∧ assoc "module" parent' = Some library
                            ∧ ∀ k, k ≠ "module"%string → assoc k parent' = assoc k parent)
    ∧ (name ≠ ""%string →
       mergeConfig host (S depth) (VObj [("decorators"%string, VArr [VStr name])]) s
       = (with_decorators
            (insert name (VObj [("module"%string, library); ("export"%string, VStr name)]))
            (with_callCount S s), Ok tt)).
Proof.
  intros library Hsupported.
  assert (∀ d, assoc "module" d = None →
               assoc "module" (with_module_export library (VStr name) d) = Some library)
    as Hmodule.
  { intros d Hd. unfold with_module_export. rewrite assoc_set_ne by done.
    by rewrite assoc_set_eq, Hd. }
  assert (∀ d, assoc "export" d = None →
               assoc "export" (with_module_export library (VStr name) d) = Some (VStr name))
    as Hexport.
  { intros d Hd. unfold with_module_export. by rewrite assoc_set_eq, Hd. }
  assert (name ≠ ""%string →
          mergeConfig host (S depth) (VObj [("decorators"%string, VArr [VStr name])]) s
          = (with_decorators
               (insert name (VObj [("module"%string, library); ("export"%string, VStr name)]))
               (with_callCount S s), Ok tt)) as Hbare.
  { intros Hname. rewrite mergeConfig_decorators_bare by done.
    by rewrite merge_decorator_object. }
  rewrite mergeConfig_decorators_mapping, merge_decorator_object.
  change (of_name (lib_name (currentLibrary (_libraryLoader (with_callCount S s)))))
    with library.
  unfold inherits_supported in Hsupported.
  destruct (assoc "inherits" declaration) as [inherits|] eqn:Hi.
  - destruct (truthy inherits) eqn:Ht.
    + destruct inherits as [| |b|n|base|id|items|parent]; try done.
      * eexists. split; [reflexivity|].
        repeat split; [| | | |exact Hbare].
        -- intros Hd. rewrite assoc_set_ne by done. by apply Hmodule.
        -- intros Hd. rewrite assoc_set_ne by done. by apply Hexport.
        -- intros base' [= <-] _. by rewrite assoc_set_eq.
        -- intros parent [=].
      * eexists. split; [reflexivity|].
        repeat split; [| | | |exact Hbare].
        -- intros Hd. rewrite assoc_set_ne by done. by apply Hmodule.
        -- intros Hd. rewrite assoc_set_ne by done. by apply Hexport.
        -- intros base [=].
        -- intros parent' [= <-] Hp. eexists. split; [by rewrite assoc_set_eq|].
           split; [by rewrite assoc_set_eq, Hp|].
           intros k Hk. by rewrite assoc_set_ne.
    + eexists. split; [reflexivity|].
      repeat split; [| | | |exact Hbare].
      * apply Hmodule.
      * apply Hexport.
      * intros base [= ->] Hbase. simpl in Ht.
        by rewrite (proj2 (String.eqb_neq _ _) Hbase) in Ht.
      * intros parent [= ->]. done.
  - eexists. split; [reflexivity|].
    repeat split; [| | | |exact Hbare].
    + apply Hmodule.
    + apply Hexport.
    + intros base [=].
    + intros parent [=].
Qed.

Lemma decorator_defaults_witness :
  mergeConfig sampleHost 1 (VObj [("decorators"%string, VArr [VStr "Store"])]) loading_xy
  = (with_decorators
       (insert "Store"%string
          (VObj [("module"%string, of_name (lib_name (currentLibrary (_libraryLoader loading_xy))));
                 ("export"%string, VStr "Store")]))
       (with_callCount S loading_xy), Ok tt)
  ∧ of_name (lib_name (currentLibrary (_libraryLoader loading_xy))) = VStr "@x/y".
Proof.
  split; [|reflexivity].
  destruct (decorator_defaults sampleHost 0 loading_xy "Store" [] eq_refl)
    as (merged & _ & _ & _ & _ & _ & Hbare).
  apply Hbare. discriminate.
Defined.

Example bare_Store_in_the_scoped_package :
  _decorators (load sampleHost (mergeConfig sampleHost 2) (VStr "@x/y") VUndef idle).1
    !! "Store"%string
  = Some (VObj [("module"%string, VStr "@x/y"); ("export"%string, VStr "Store")]).
Proof. vm_compute. reflexivity. Qed.

(** C7 as stated fails for the empty string: the guard on [inherits] is its
    truthiness, so a declaration whose [inherits] is the empty string is
    stored with [inherits] still the empty string, not an object with that
    [export]. *)
Lemma empty_inherits_is_left_alone :
  let r := load sampleHost (mergeConfig sampleHost 2) (VStr "/libs/widget") VUndef idle in
  r.2 = Ok tt
  ∧ _decorators r.1 !! "Widget"%string
    = Some (VObj [("inherits"%string, VStr ""); ("module"%string, VStr "widget");
                  ("export"%string, VStr "Widget")])
  ∧ assoc "inherits" [("inherits"%string, VStr ""); ("module"%string, VStr "widget");
                      ("export"%string, VStr "Widget")]
    ≠ Some (VObj [("export"%string, VStr ""); ("module"%string, VStr "widget")]).
Proof.
  cbv zeta. split; [vm_compute; reflexivity|].
  split; [vm_compute; reflexivity|]. vm_compute. discriminate.
Qed.

(** ** Override ordering *)

Lemma load_returns_to_current host mergeConfig libraryName options s s' :
  load host mergeConfig libraryName options s = (s', Ok tt) →
  currentLibrary (_libraryLoader s') = currentLibrary (_libraryLoader s).
Proof.
  rewrite load_unfold.
  destruct (getRootDir host libraryName) as [p| |]; try done.
  destruct (find (same_load _ _) _); [by intros [= <-]|].
  destruct (newLibraryInfo _ _ _ _) as [li| |] eqn:Hli; try done.
  apply newLibraryInfo_fields in Hli as (_ & _ & Hparent). cbv zeta.
  destruct (find (conflicts_with li) _); [done|].
  destruct (loadConfigFile _ _ _).2 as [doc| |]; try done.
  destruct (truthy doc).
  - destruct (mergeConfig doc _) as [merged [[]| |]]; try done.
    intros [= <-]. by rewrite Hparent.
  - unfold modify. intros [= <-]. by rewrite Hparent.
Qed.



Example application_overrides_its_library :
  (constructor sampleHost 3 (Some "node"%string) []).2 = Ok tt
  ∧ _components (constructor sampleHost 3 (Some "node"%string) []).1 !! "x"%string = Some D2
  ∧ _components (load sampleHost (mergeConfig sampleHost 2) (VStr "/libs/L") VUndef idle).1
      !! "x"%string = Some D1.
Proof. repeat split; vm_compute; reflexivity. Qed.

(** ** The embedding against the repository's tests

    [new TwistConfiguration(context, { root: testLibrary3 })] gives the
    decorators, plugins and options the test suite asserts. *)

Example testLibrary3_decorators :
  let this := (constructor sampleHost 3 (Some "node"%string)
                 [("root"%string, VStr "/test/testLibrary3")]).1 in
  _decorators this !! "Decorator1"%string
  = Some (VObj [("module"%string, VStr "test-library3"); ("export"%string, VStr "Decorator1")])
  ∧ _decorators this !! "Decorator2"%string
    = Some (VObj [("module"%string, VStr "@twist/test"); ("export"%string, VStr "Decorator2")])
  ∧ _decorators this !! "Decorator3"%string
    = Some (VObj [("module"%string, VStr "@twist/test"); ("export"%string, VStr "Dec")])
  ∧ _decorators this !! "Decorator4"%string
    = Some (VObj [("inherits"%string,
                   VObj [("export"%string, VStr "BaseClass");
                         ("module"%string, VStr "test-library3")]);
                  ("module"%string, VStr "test-library3");
                  ("export"%string, VStr "Decorator4")])
  ∧ _decorators this !! "Decorator5"%string
    = Some (VObj [("inherits"%string,
                   VObj [("module"%string, VStr "@twist/test");
                         ("export"%string, VStr "BaseClass")]);
                  ("module"%string, VStr "test-library3");
                  ("export"%string, VStr "Decorator5")])
  ∧ size (_decorators this) = 5.
Proof. cbv zeta. repeat split; vm_compute; reflexivity. Qed.

Example testLibrary3_plugins_and_options :
  let node := (constructor sampleHost 3 (Some "node"%string)
                 [("root"%string, VStr "/test/testLibrary3")]).1 in
  let webpack := (constructor sampleHost 3 (Some "webpack"%string)
                    [("root"%string, VStr "/test/testLibrary3")]).1 in
  _babelPlugins node
  = [(VStr "plugin1", VObj []); (VStr "plugin2", VObj [("option"%string, VBool true)])]
  ∧ (getOption (VStr "polyfill") node).2 = Ok (VNum 42)
  ∧ (getOption (VStr "regenerator") node).2 = Ok (VBool false)
  ∧ (getOption (VStr "polyfill") webpack).2 = Ok (VNum 1024)
  ∧ (getOption (VStr "regenerator") webpack).2 = Ok (VStr "hello").
Proof. cbv zeta. repeat split; vm_compute; reflexivity. Qed.

(** * Further properties of the loader and the configuration *)

Section Ends.

Context (R : TwistConfiguration → TwistConfiguration → bool → Prop).

Hypothesis R_same : ∀ s b, R s s b.
Hypothesis R_then : ∀ s s' s'' b, R s s' true → R s' s'' b → R s s'' b.

Ltac unchanged := let s := fresh "s" in intros s; simpl; apply R_same.

Lemma ends_bind {A B} (m : M A) (k : A → M B) :
  ends R m → (∀ a, ends R (k a)) → ends R (bind m k).
Proof.
  intros Hm Hk s. unfold bind. specialize (Hm s).
  destruct (m s) as [s' [a| |]]; simpl in *; try done.
  eapply R_then; [exact Hm|apply Hk].
Qed.

Lemma ends_bind_get {B} (k : TwistConfiguration → M B) :
  (∀ s, R s (k s s).1 (returned (k s s).2)) → ends R (bind get k).
Proof. intros Hk s. apply Hk. Qed.

Lemma ends_forEach {A} (f : A → M unit) l : (∀ x, ends R (f x)) → ends R (forEach f l).
Proof.
  intros Hf. induction l as [|x l IH]; simpl.
  - unchanged.
  - apply ends_bind; [apply Hf|done].
Qed.

Lemma ends_forEachConfig config callback :
  (∀ name c, ends R (callback name c)) → ends R (_forEachConfig config callback).
Proof.
  intros Hcb. destruct config; simpl; try (unchanged).
  - apply ends_forEach. intros entry.
    destruct (truthy entry); simpl; [|unchanged].
    destruct entry; apply Hcb.
  - apply ends_forEach. intros key. apply Hcb.
Qed.

Hypothesis R_enter :
  ∀ li s p o b,
    find (same_load p o) (libraryInfos (_libraryLoader s)) = None →
    lib_path li = Some p → lib_options li = o →
    parentLibrary li = Some (currentLibrary (_libraryLoader s)) →
    (b = true →
     find (conflicts_with li) (libraryInfos (_libraryLoader s) ++ [li]) = None) →
    R s (enter_library li (push_library li s)) b.
Hypothesis R_leave :
  ∀ s s', R s s' true → R s (enter_library (currentLibrary (_libraryLoader s)) s') true.
Hypothesis R_warn : ∀ message s b, R s (with_console_warn (λ w, w ++ [message]) s) b.
Hypothesis R_count : ∀ s b, R s (with_callCount S s) b.
Hypothesis R_decorator : ∀ k v s b, R s (with_decorators (insert k v) s) b.
Hypothesis R_component : ∀ k v s b, R s (with_components (insert k v) s) b.
Hypothesis R_plugin :
  ∀ plugin options s b,
    (∀ item, item ∈ _babelPlugins s → strict_eq item.1 plugin = false) →
    R s (with_babelPlugins (λ l, l ++ [(plugin, options)]) s) b.
Hypothesis R_option :
  ∀ k v s b, is_Some (_options s !! k) → R s (with_options (insert k v) s) b.

Variable host : Host.

Lemma ends_load mergeConfig libraryName options :
  (∀ document, ends R (mergeConfig document)) →
  ends R (load host mergeConfig libraryName options).
Proof.
  intros Hmc s. rewrite load_unfold.
  destruct (getRootDir host libraryName) as [p| |]; try apply R_same.
  destruct (find (same_load _ _) _) eqn:Hfresh; [apply R_same|].
  destruct (newLibraryInfo _ _ _ _) as [li| |] eqn:Hli; try apply R_same.
  apply newLibraryInfo_fields in Hli as (Hpath & Hoptions & Hparent). cbv zeta.
  destruct (find (conflicts_with li) _) eqn:Hconflict.
  { simpl. by apply (R_enter li s p (default_options options)). }
  pose proof (R_enter li s p (default_options options) true Hfresh Hpath Hoptions Hparent
                (λ _, Hconflict)) as Hentered.
  destruct (loadConfigFile _ _ _).2 as [doc| |];
    try (simpl; by apply (R_enter li s p (default_options options))).
  destruct (truthy doc).
  - pose proof (Hmc doc (enter_library li (push_library li s))) as Hm.
    destruct (mergeConfig doc _) as [s3 [[]| |]]; simpl in *;
      try (by eapply R_then).
    rewrite Hparent. simpl. apply R_leave. by eapply R_then.
  - unfold modify. simpl. rewrite Hparent. simpl. apply R_leave.
    eapply R_then; [exact Hentered|apply R_warn].
Qed.

Lemma ends_merge_decorator name config : ends R (merge_decorator name config).
Proof.
  intros s. destruct (merge_decorator_cases name config s) as [(r & -> & Hr)|(c & ->)]; simpl.
  - apply R_same.
  - apply R_decorator.
Qed.

Lemma ends_merge_component name config : ends R (merge_component name config).
Proof.
  intros s. destruct (merge_component_cases name config s) as [(r & -> & _)|(c & _ & ->)]; simpl.
  - apply R_same.
  - apply R_component.
Qed.

Lemma ends_addBabelPlugin plugin options : ends R (addBabelPlugin plugin options).
Proof.
  intros s. destruct (addBabelPlugin_cases plugin options s) as [(_ & _ & _ & ->)|[Hnone ->]].
  - apply R_same.
  - by apply R_plugin.
Qed.

Lemma ends_setOption name value : ends R (setOption name value).
Proof.
  intros s. destruct (setOption_cases name value s) as [(Hname & _ & ->)|[e ->]]; simpl.
  - by apply R_option.
  - apply R_same.
Qed.

Lemma ends_mergeConfig_with depth config :
  (∀ mergeConfig libraryName options,
     (∀ document, ends R (mergeConfig document)) →
     ends R (load host mergeConfig libraryName options)) →
  ends R (mergeConfig host depth config).
Proof.
  intros Hload. revert config. induction depth as [|depth IH]; intros config.
  - intros s. apply R_same.
  - rewrite mergeConfig_unfold. cbv zeta.
    apply ends_bind; [intros s; apply R_count|]. intros _.
    apply ends_bind; [unchanged|]. intros libraries.
    apply ends_bind.
    { apply ends_forEachConfig. intros n o. by apply Hload. }
    intros _. apply ends_bind; [unchanged|]. intros decorators.
    apply ends_bind.
    { apply ends_forEachConfig, ends_merge_decorator. }
    intros _. apply ends_bind; [unchanged|]. intros components.
    apply ends_bind.
    { apply ends_forEachConfig, ends_merge_component. }
    intros _. apply ends_bind; [unchanged|]. intros babelPlugins.
    apply ends_bind.
    { apply ends_forEachConfig, ends_addBabelPlugin. }
    intros _. apply ends_bind; [unchanged|]. intros options.
    apply ends_bind.
    { apply ends_forEachConfig, ends_setOption. }
    intros _. apply ends_bind; [unchanged|]. intros context_.
    destruct (truthy context_); [|unchanged].
    apply ends_bind_get. intros s.
    unfold bind, lift. destruct (get_computed context_ (context s)) as [nested| |];
      simpl; try apply R_same.
    apply IH.
Qed.

Lemma ends_mergeConfig depth config : ends R (mergeConfig host depth config).
Proof. apply ends_mergeConfig_with, ends_load. Qed.

End Ends.




Section OnlyAdds.

Variable host : Host.





End OnlyAdds.


(** ** What the registry and the plugin list never hold *)

Lemma fresh_load_key p o li regs :
  find (same_load p o) regs = None →
  lib_path li = Some p → lib_options li = o →
  load_key li ∉ load_key <$> regs.
Proof.
  intros Hfresh Hpath Hoptions [r [Hkey Hr]]%list_elem_of_fmap.
  apply list_elem_of_In in Hr. pose proof (find_none _ _ Hfresh r Hr) as Hsame.
  unfold load_key in Hkey. rewrite Hpath, Hoptions in Hkey. injection Hkey as Hp Hj.
  unfold same_load in Hsame. rewrite <- Hp, <- Hj in Hsame.
  by rewrite !bool_decide_eq_true_2 in Hsame.
Qed.

Lemma no_repeated_load_enter li s p o :
  find (same_load p o) (libraryInfos (_libraryLoader s)) = None →
  lib_path li = Some p → lib_options li = o →
  no_repeated_load s → no_repeated_load (enter_library li (push_library li s)).
Proof.
  intros Hfresh Hpath Hoptions Hs. unfold no_repeated_load in *. simpl.
  rewrite fmap_app. apply NoDup_app. split; [done|]. split; [|apply NoDup_singleton].
  intros k Hk ->%list_elem_of_singleton.
  by apply (fresh_load_key p o li _ Hfresh Hpath Hoptions).
Qed.

Lemma mergeConfig_no_repeated_load host depth config s :
  no_repeated_load s → no_repeated_load (mergeConfig host depth config s).1.
Proof.
  apply (ends_mergeConfig (λ s s' _, no_repeated_load s → no_repeated_load s'));
    try (intros; assumption).
  - intros s1 s2 s3 _ H12 H23 H1. by apply H23, H12.
  - intros li s0 p o b Hfresh Hpath Hoptions _ _. by apply (no_repeated_load_enter li s0 p o).
  - intros s0 s' H H0. by apply H in H0.
Qed.

Lemma load_no_repeated_load host depth libraryName options s :
  no_repeated_load s →
  no_repeated_load (load host (mergeConfig host depth) libraryName options s).1.
Proof.
  apply (ends_load (λ s s' _, no_repeated_load s → no_repeated_load s'));
    try (intros; assumption).
  - intros s1 s2 s3 _ H12 H23 H1. by apply H23, H12.
  - intros li s0 p o b Hfresh Hpath Hoptions _ _. by apply (no_repeated_load_enter li s0 p o).
  - intros s0 s' H H0. by apply H in H0.
  - intros document s0. apply mergeConfig_no_repeated_load.
Qed.

Lemma distinct_plugins_add plugin options s :
  (∀ item, item ∈ _babelPlugins s → strict_eq item.1 plugin = false) →
  distinct_plugins s →
  distinct_plugins (with_babelPlugins (λ l, l ++ [(plugin, options)]) s).
Proof.
  intros Hnone Hs i j a b Hij Ha Hb. simpl in *.
  destruct (decide (j < length (_babelPlugins s))) as [Hj|Hj].
  - rewrite lookup_app_l in Ha by lia. rewrite lookup_app_l in Hb by lia.
    by apply (Hs i j).
  - rewrite lookup_app_r in Hb by lia.
    destruct (j - length (_babelPlugins s)) as [|n] eqn:Hn; [|by destruct n].
    injection Hb as <-. assert (j = length (_babelPlugins s)) as -> by lia.
    rewrite lookup_app_l in Ha by lia.
    apply Hnone. by eapply list_elem_of_lookup_2.
Qed.

Lemma mergeConfig_distinct_plugins host depth config s :
  distinct_plugins s → distinct_plugins (mergeConfig host depth config s).1.
Proof.
  apply (ends_mergeConfig (λ s s' _, distinct_plugins s → distinct_plugins s'));
    try (unfold distinct_plugins; simpl; auto; fail).
  - intros s1 s2 s3 _ H12 H23 H1. by apply H23, H12.
  - intros plugin options s0 _ Hnone Hs. by apply distinct_plugins_add.
Qed.

Lemma load_distinct_plugins host depth libraryName options s :
  distinct_plugins s →
  distinct_plugins (load host (mergeConfig host depth) libraryName options s).1.
Proof.
  apply (ends_load (λ s s' _, distinct_plugins s → distinct_plugins s'));
    try (unfold distinct_plugins; simpl; auto; fail).
  - intros s1 s2 s3 _ H12 H23 H1. by apply H23, H12.
  - intros document s0. apply mergeConfig_distinct_plugins.
Qed.

Lemma reachable_no_repeats host s :
  reachable host s → no_repeated_load s ∧ distinct_plugins s.
Proof.
  induction 1 as [depth contextName options|s depth library options _ [IH1 IH2]
                  |s depth config _ [IH1 IH2]|s plugin options _ [IH1 IH2]
                  |s name value _ [IH1 IH2]|s name config _ [IH1 IH2]
                  |s name config _ [IH1 IH2]].
  - unfold constructor. set (this := {| context := _ |}).
    assert (no_repeated_load this) as H1 by apply NoDup_nil_2.
    assert (distinct_plugins this) as H2 by (by intros i j a b _ Ha).
    destruct (assoc "root" options) as [[]|]; try done; unfold addLibrary;
      (split; [by apply load_no_repeated_load|by apply load_distinct_plugins]).
  - split; [by apply load_no_repeated_load|by apply load_distinct_plugins].
  - split; [by apply mergeConfig_no_repeated_load|by apply mergeConfig_distinct_plugins].
  - split.
    + destruct (addBabelPlugin_cases plugin options s) as [(_ & _ & _ & ->)|[_ ->]]; done.
    + destruct (addBabelPlugin_cases plugin options s) as [(_ & _ & _ & ->)|[Hnone ->]];
        [done|]. by apply distinct_plugins_add.
  - by destruct (setOption_cases name value s) as [(_ & _ & ->)|[e ->]].
  - done.
  - done.
Qed.

(** X2. However an instance was used, and whether or not its calls returned,
    no two records of its registry have both the same path and options with
    the same JSON text. *)
Theorem registry_has_no_repeated_load host s :
  reachable host s → no_repeated_load s.
Proof. intros H. by apply reachable_no_repeats in H as [H _]. Qed.

(** X3. However an instance was used, no two entries of its plugin list hold
    a plugin that [===] identifies. *)
Theorem plugin_list_has_no_repeated_plugin host s :
  reachable host s → distinct_plugins s.
Proof. intros H. by apply reachable_no_repeats in H as [_ H]. Qed.


(** ** What the calls that return keep *)

Lemma one_version_per_name_enter li s :
  find (conflicts_with li) (libraryInfos (_libraryLoader s) ++ [li]) = None →
  one_version_per_name s → one_version_per_name (enter_library li (push_library li s)).
Proof.
  intros Hnone Hs a b Ha Hb Hname. simpl in *.
  assert (∀ x, x ∈ libraryInfos (_libraryLoader s) → lib_name x = lib_name li →
               lib_version x = lib_version li) as Hli.
  { intros x Hx Hx_name.
    assert (In x (libraryInfos (_libraryLoader s) ++ [li])) as Hin
      by (apply list_elem_of_In, elem_of_app; by left).
    pose proof (find_none _ _ Hnone x Hin) as Hc. unfold conflicts_with in Hc.
    rewrite bool_decide_eq_true_2 in Hc by done. simpl in Hc.
    apply negb_false_iff, bool_decide_eq_true_1 in Hc. done. }
  apply elem_of_app in Ha as [Ha|Ha%list_elem_of_singleton];
    apply elem_of_app in Hb as [Hb|Hb%list_elem_of_singleton]; subst.
  - by apply Hs.
  - by apply Hli.
  - symmetry. by apply Hli.
  - done.
Qed.


Lemma mergeConfig_one_version_per_name host depth config s s' :
  mergeConfig host depth config s = (s', Ok tt) →
  one_version_per_name s → one_version_per_name s'.
Proof.
  intros Hm.
  pose proof (ends_mergeConfig (when_returned one_version_per_name)) as H.
  unfold ends in H. specialize (H) with (host := host) (depth := depth) (config := config) (s := s).
  rewrite Hm in H. simpl in H. apply H; try done; unfold when_returned;
    try (unfold one_version_per_name; simpl; auto; fail).
  intros li s0 p o b _ _ _ _ Hb Hbt H0.
  exact (one_version_per_name_enter li s0 (Hb Hbt) H0).
Qed.

Lemma load_one_version_per_name host depth libraryName options s s' :
  load host (mergeConfig host depth) libraryName options s = (s', Ok tt) →
  one_version_per_name s → one_version_per_name s'.
Proof.
  intros Hm.
  pose proof (ends_load (when_returned one_version_per_name)) as H.
  unfold ends in H.
  specialize (H) with (host := host) (mergeConfig := mergeConfig host depth)
                      (libraryName := libraryName) (options := options) (s := s).
  rewrite Hm in H. simpl in H. apply H; try done; unfold when_returned;
    try (unfold one_version_per_name; simpl; auto; fail).
  - intros li s0 p o b _ _ _ _ Hb Hbt H0.
    exact (one_version_per_name_enter li s0 (Hb Hbt) H0).
  - intros document s0. unfold when_returned.
    destruct (mergeConfig host depth document s0) as [s1 [[]| |]] eqn:E; simpl; try done.
    intros _. by apply (mergeConfig_one_version_per_name host depth document s0 s1).
Qed.

(** X4. As long as every call returns, the registry never holds two records
    with the same package name and different versions: construction
    establishes it, and [addLibrary] and [mergeConfig] keep it. *)
Theorem successful_loads_keep_one_version_per_name host :
  (∀ depth contextName options,
     (constructor host depth contextName options).2 = Ok tt →
     one_version_per_name (constructor host depth contextName options).1)
  ∧ (∀ depth libraryName options s s',
       one_version_per_name s →
       addLibrary host (mergeConfig host depth) libraryName options s = (s', Ok tt) →
       one_version_per_name s')
  ∧ (∀ depth config s s',
       one_version_per_name s →
       mergeConfig host depth config s = (s', Ok tt) →
       one_version_per_name s').
Proof.
  split; [|split].
  - intros depth contextName options. unfold constructor.
    set (this := {| context := _ |}).
    assert (one_version_per_name this) as Hthis by (intros a b Ha; by apply elem_of_nil in Ha).
    destruct (assoc "root" options) as [[]|]; try done; unfold addLibrary;
      match goal with
      | |- (load ?h ?m ?n ?o ?s).2 = _ → _ =>
          destruct (load h m n o s) as [s1 [[]| |]] eqn:E; simpl; try done;
          intros _; by apply (load_one_version_per_name _ _ _ _ _ _ E)
      end.
  - intros depth libraryName options s s' Hs Hload.
    by apply (load_one_version_per_name _ _ _ _ _ _ Hload).
  - intros depth config s s' Hs Hm.
    by apply (mergeConfig_one_version_per_name _ _ _ _ _ Hm).
Qed.

Lemma mergeConfig_returns_to_current host depth config s s' :
  mergeConfig host depth config s = (s', Ok tt) →
  currentLibrary (_libraryLoader s') = currentLibrary (_libraryLoader s).
Proof.
  intros Hm.
  pose proof (ends_mergeConfig_with
                (λ s s' b, b = true → currentLibrary (_libraryLoader s')
                                      = currentLibrary (_libraryLoader s))) as H.
  unfold ends in H. specialize (H) with (host := host) (depth := depth) (config := config) (s := s).
  rewrite Hm in H. simpl in H. apply H; try done.
  - intros s1 s2 s3 b H12 H23 Hb. rewrite (H23 Hb). by apply H12.
  - intros mc n o _ s0.
    destruct (load host mc n o s0) as [s1 [[]| |]] eqn:E; simpl; try done.
    intros _. by apply (load_returns_to_current _ _ _ _ _ _ E).
Qed.

(** X5. A constructor that returns leaves the [(root)] sentinel as the
    current library, and a [mergeConfig] that returns leaves the current
    library it found, whatever libraries the document loaded. *)
Theorem currentLibrary_is_the_sentinel_between_loads host :
  (∀ depth contextName options,
     (constructor host depth contextName options).2 = Ok tt →
     currentLibrary (_libraryLoader (constructor host depth contextName options).1)
     = rootLibrary)
  ∧ (∀ depth config s s',
       mergeConfig host depth config s = (s', Ok tt) →
       currentLibrary (_libraryLoader s') = currentLibrary (_libraryLoader s)).
Proof.
  split.
  - intros depth contextName options. unfold constructor.
    set (this := {| context := _ |}).
    destruct (assoc "root" options) as [[]|]; try done; unfold addLibrary;
      match goal with
      | |- (load ?h ?m ?n ?o ?s).2 = _ → _ =>
          destruct (load h m n o s) as [s1 [[]| |]] eqn:E; simpl; try done;
          intros _; by rewrite (load_returns_to_current _ _ _ _ _ _ E)
      end.
  - intros depth config s s'. apply mergeConfig_returns_to_current.
Qed.


Lemma foldl_locations (regs : list LibraryInfo) (m : gmap string JsVal) k :
  foldl (λ libraries library,
           <[location_key library := of_name (lib_path library)]> libraries) m regs !! k
  = match last (filter (λ r, location_key r = k) regs) with
    | Some r => Some (of_name (lib_path r))
    | None => m !! k
    end.
Proof.
  revert m. induction regs as [|r regs IH]; intros m; simpl; [done|].
  rewrite IH. rewrite filter_cons.
  destruct (decide (location_key r = k)) as [Hk|Hk].
  - destruct (filter _ regs) as [|r' rest] eqn:Hf; simpl.
    + by rewrite Hk, lookup_insert_eq.
    + rewrite last_cons. by destruct (last rest).
  - destruct (last (filter _ regs)); [done|]. by rewrite lookup_insert_ne.
Qed.

Lemma libraryLocations_lookup this k :
  libraryLocations this !! k
  = (λ r, of_name (lib_path r))
      <$> last (filter (λ r, location_key r = k) (libraryInfos (_libraryLoader this))).
Proof.
  unfold libraryLocations.
  pose proof (foldl_locations (libraryInfos (_libraryLoader this)) ∅ k) as H.
  unfold location_key in *. rewrite H. by destruct (last _).
Qed.

(** X6. [libraryLocations] maps a name to the path of the last record of the
    registry filed under that name, and has no entry for other names. *)
Theorem libraryLocations_last_load_wins this k :
  libraryLocations this !! k
  = (λ r, of_name (lib_path r))
      <$> last (filter (λ r, location_key r = k) (libraryInfos (_libraryLoader this))).
Proof. apply libraryLocations_lookup. Qed.

(** X7. In [twistOptions] the three computed entries replace options of the
    same name and every other option is passed through; among the aliases a
    path alias wins over a library location, and among the auto-imports a
    component wins over a decorator of the same name. *)
Theorem twistOptions_entries this :
  ∃ aliases autoImport,
    twistOptions this !! "aliases"%string = Some (MapOption aliases)
    ∧ twistOptions this !! "autoImport"%string = Some (MapOption autoImport)
    ∧ twistOptions this !! "plugins"%string = Some (PluginsOption (_babelPlugins this))
    ∧ (∀ k, aliases !! k
            = match _pathAliases this !! k with
              | Some path => Some (VStr path)
              | None =>
                  (λ r, of_name (lib_path r))
                    <$> last (filter (λ r, location_key r = k)
                                     (libraryInfos (_libraryLoader this)))
              end)
    ∧ (∀ k, autoImport !! k
            = match _components this !! k with
              | Some component => Some component
              | None => _decorators this !! k
              end)
    ∧ (∀ k, k ∉ ["aliases"; "autoImport"; "plugins"]%string →
            twistOptions this !! k = PlainOption <$> _options this !! k).
Proof.
  unfold twistOptions. eexists _, _. repeat split.
  - by rewrite lookup_insert_ne, lookup_insert_ne, lookup_insert_eq.
  - by rewrite lookup_insert_ne, lookup_insert_eq.
  - by rewrite lookup_insert_eq.
  - intros k. rewrite lookup_union, lookup_fmap, libraryLocations_lookup.
    destruct (_pathAliases this !! k); simpl; [|by rewrite (left_id None _)].
    by destruct (_ <$> last _).
  - intros k. rewrite lookup_union.
    destruct (_components this !! k); simpl; [|by rewrite (left_id None _)].
    by destruct (_decorators this !! k).
  - intros k Hk. rewrite !lookup_insert_ne, lookup_fmap; [done|set_solver..].
Qed.

(** ** The two forms of a section *)

Lemma forEach_ext {A} (f g : A → M unit) l s :
  (∀ x, x ∈ l → ∀ s, f x s = g x s) → forEach f l s = forEach g l s.
Proof.
  revert s. induction l as [|x l IH]; intros s H; simpl; [done|].
  unfold bind. rewrite (H x) by left.
  destruct (g x s) as [s' [[]| |]]; try done.
  apply IH. intros y Hy. apply H. by right.
Qed.

Lemma forEach_map {A B} (h : A → B) (f : B → M unit) l s :
  forEach f (map h l) s = forEach (λ x, f (h x)) l s.
Proof.
  revert s. induction l as [|x l IH]; intros s; simpl; [done|].
  unfold bind. destruct (f (h x) s) as [s' [[]| |]]; try done.
Qed.

Lemma assoc_NoDup k v props :
  NoDup props.*1 → (k, v) ∈ props → assoc k props = Some v.
Proof.
  induction props as [|[k' v'] props IH]; intros Hnd Hin; [by apply elem_of_nil in Hin|].
  simpl in *. apply NoDup_cons in Hnd as [Hk' Hnd].
  apply elem_of_cons in Hin as [[= <- <-]|Hin].
  - by rewrite String.eqb_refl.
  - destruct (String.eqb_spec k k') as [->|Hne]; [|by apply IH].
    destruct Hk'. apply list_elem_of_fmap. by exists (k', v).
Qed.


(** X9. [_forEachConfig] treats a mapping whose values are all truthy like
    the sequence of its [[key, value]] pairs. *)
Theorem mapping_form_is_sequence_form props callback s :
  NoDup props.*1 →
  (∀ k v, (k, v) ∈ props → truthy v = true) →
  _forEachConfig (VObj props) callback s
  = _forEachConfig (VArr (map as_pair props)) callback s.
Proof.
  intros Hnd Htruthy. simpl. rewrite !forEach_map.
  apply forEach_ext. intros [k v] Hin s0. simpl.
  rewrite (assoc_NoDup k v props Hnd Hin). simpl.
  unfold js_or. by rewrite (Htruthy k v Hin).
Qed.

Section Documents.

Variable host : Host.

(** X10. On an instance whose options object inherits [hasOwnProperty], an
    option given a falsy value in the sequence form is set to an empty
    object, since the pair's second element goes through [|| {}]; the
    mapping form sets the value itself. *)
Theorem falsy_value_in_sequence_form depth name value s :
  inherits_hasOwnProperty s →
  is_Some (_options s !! name) →
  truthy value = false →
  (∃ s', mergeConfig host (S depth)
           (VObj [("options"%string, VArr [VArr [VStr name; value]])]) s = (s', Ok tt)
         ∧ getOption (VStr name) s' = (s', Ok (VObj [])))
  ∧ (∃ s', mergeConfig host (S depth)
             (VObj [("options"%string, VObj [(name, value)])]) s = (s', Ok tt)
           ∧ getOption (VStr name) s' = (s', Ok value)).
Proof.
  intros Hinherits Hv Hfalsy. split.
  - enter_mergeConfig. unfold js_or. rewrite Hfalsy.
    rewrite setOption_known by done. evaluate.
    eexists. split; [reflexivity|].
    unfold getOption. run. by rewrite lookup_insert_eq.
  - enter_mergeConfig. rewrite String.eqb_refl. evaluate.
    rewrite setOption_known by done. evaluate.
    eexists. split; [reflexivity|].
    unfold getOption. run. by rewrite lookup_insert_eq.
Qed.

(** The options step over a mapping whose names the instance has: every
    name of the mapping gets the mapping's value, and the other options
    stay as they are. *)
Lemma forEach_setOption keys props s :
  inherits_hasOwnProperty s →
  (∀ k, k ∈ keys → is_Some (_options s !! k)) →
  ∃ options',
    forEach (λ key, setOption (VStr key) (default VUndef (assoc key props))) keys s
    = (with_options (λ _, options') s, Ok tt)
    ∧ (∀ k, k ∈ keys → options' !! k = Some (default VUndef (assoc k props)))
    ∧ (∀ k, k ∉ keys → options' !! k = _options s !! k).
Proof.
  revert s. induction keys as [|key keys IH]; intros s Hinherits Hkeys.
  - exists (_options s). split; [by destruct s|]. split; [|done].
    intros k Hk. by apply elem_of_nil in Hk.
  - simpl. unfold bind.
    rewrite setOption_known; [|done|apply Hkeys, list_elem_of_here].
    set (s1 := with_options _ s).
    assert (key ≠ "hasOwnProperty"%string) as Hkey.
    { intros ->. destruct (Hkeys "hasOwnProperty"%string) as [v Hv];
        [apply list_elem_of_here|]. unfold inherits_hasOwnProperty in Hinherits. congruence. }
    destruct (IH s1) as (options' & -> & Hin & Hout).
    + unfold inherits_hasOwnProperty, s1. simpl. by rewrite lookup_insert_ne.
    + intros k Hk. unfold s1. simpl.
      destruct (decide (key = k)) as [->|Hne];
        [rewrite lookup_insert_eq|rewrite lookup_insert_ne by done]; [done|].
      by apply Hkeys, list_elem_of_further.
    + exists options'. split; [done|]. split.
      * intros k Hk. destruct (decide (k ∈ keys)) as [Hk'|Hk']; [by apply Hin|].
        apply elem_of_cons in Hk as [->|Hk]; [|done].
        rewrite (Hout key Hk'). unfold s1. simpl. by rewrite lookup_insert_eq.
      * intros k Hk. apply not_elem_of_cons in Hk as [Hne Hk].
        rewrite (Hout k Hk). unfold s1. simpl. by rewrite lookup_insert_ne.
Qed.

(** X8. An options section given as a mapping whose names the instance has
    is merged to a normal return; [getOption] then gives, for every name of
    the mapping, the value the mapping has for it, and for every other name
    what it gave before. *)
Theorem options_section_then_getOption depth options s :
  inherits_hasOwnProperty s →
  NoDup options.*1 →
  (∀ k, k ∈ options.*1 → is_Some (_options s !! k)) →
  ∃ s', mergeConfig host (S depth) (VObj [("options"%string, VObj options)]) s = (s', Ok tt)
        ∧ (∀ k v, (k, v) ∈ options → getOption (VStr k) s' = (s', Ok v))
        ∧ (∀ name, js_to_string name ∉ options.*1 →
                   getOption name s' = (s', (getOption name s).2)).
Proof.
  intros Hinherits Hnodup Hknown.
  enter_mergeConfig.
  destruct (forEach_setOption options.*1 options (with_callCount S s))
    as (options' & Hrun & Hin & Hout); [done..|].
  change (map fst options) with (options.*1). rewrite Hrun. evaluate.
  eexists. split; [reflexivity|]. split.
  - intros k v Hkv. unfold getOption. run.
    rewrite (Hin k) by (apply list_elem_of_fmap; by exists (k, v)).
    by rewrite (assoc_NoDup k v options Hnodup Hkv).
  - intros name Hname. unfold getOption. run. by rewrite (Hout _ Hname).
Qed.


(** X11. [mergeConfig] of a value that has none of the six keys it reads
    returns and changes nothing but the call count, [undefined] included;
    [mergeConfig(null)] throws a [TypeError]. *)
Theorem mergeConfig_of_an_empty_document depth s :
  (∀ config, declares_nothing config →
             mergeConfig host (S depth) config s = (with_callCount S s, Ok tt))
  ∧ mergeConfig host (S depth) VNull s = (with_callCount S s, Throw TypeError).
Proof.
  split; [|reflexivity].
  intros config Hnothing. destruct config; try done.
  simpl in Hnothing.
  rewrite mergeConfig_unfold. unfold default_options, get_prop, document_keys in *.
  rewrite !Hnothing by set_solver. reflexivity.
Qed.

End Documents.


Section Failures.

Variable host : Host.








End Failures.


Section NewLibrary.

Variable host : Host.

Lemma conflicts_with_self li : conflicts_with li li = false.
Proof. unfold conflicts_with. by rewrite !bool_decide_eq_true_2. Qed.


Lemma load_of_new_library mergeConfig libraryName options libraryPath manifest s :
  let libraryInfo :=
    library_record libraryPath options manifest (currentLibrary (_libraryLoader s)) in
  let entered := enter_library libraryInfo (push_library libraryInfo s) in
  resolveRoot host (js_to_string libraryName) = Some libraryPath →
  libraryPath ≠ ""%string →
  find (same_load libraryPath (default_options options))
       (libraryInfos (_libraryLoader s)) = None →
  packageJson host libraryPath = Some manifest →
  find (conflicts_with libraryInfo) (libraryInfos (_libraryLoader s) ++ [libraryInfo]) = None →
  load host mergeConfig libraryName options s
  = match (loadConfigFile host (default_options options) entered).2 with
    | Ok libraryConfig =>
        match (if truthy libraryConfig then mergeConfig libraryConfig
               else modify (with_console_warn
                              (λ w, w ++ [missing_twistrc_warning libraryName]))) entered with
        | (merged, Ok _) =>
            (enter_library (currentLibrary (_libraryLoader s)) merged, Ok tt)
        | (merged, Throw e) => (merged, Throw e)
        | (merged, Diverge) => (merged, Diverge)
        end
    | Throw e => (entered, Throw e)
    | Diverge => (entered, Diverge)
    end.
Proof.
  intros libraryInfo entered Hp Hne Hfresh Hm Hconflict.
  rewrite load_unfold. unfold getRootDir. rewrite Hp, Hfresh.
  unfold newLibraryInfo. rewrite (proj2 (String.eqb_neq _ _) Hne), Hm.
  fold (library_record libraryPath options manifest (currentLibrary (_libraryLoader s))).
  fold libraryInfo. cbv zeta. rewrite Hconflict. fold entered. reflexivity.
Qed.

Lemma loadConfigFile_json options dir document s :
  lib_path (currentLibrary (_libraryLoader s)) = Some dir →
  twistrc host dir = TwistrcJson document →
  loadConfigFile host options s = (s, Ok document).
Proof. intros Hdir Hjson. unfold loadConfigFile. run. by rewrite Hdir, Hjson. Qed.

(** X14. Loading a library that has neither configuration file registers the
    library, logs the warning that names it, returns, and leaves the current
    library as it was; the callback is not called. *)
Theorem library_without_configuration
  mergeConfig libraryName options libraryPath manifest s :
  let libraryInfo :=
    library_record libraryPath options manifest (currentLibrary (_libraryLoader s)) in
  resolveRoot host (js_to_string libraryName) = Some libraryPath →
  libraryPath ≠ ""%string →
  find (same_load libraryPath (default_options options))
       (libraryInfos (_libraryLoader s)) = None →
  packageJson host libraryPath = Some manifest →
  find (conflicts_with libraryInfo) (libraryInfos (_libraryLoader s) ++ [libraryInfo]) = None →
  twistrc host libraryPath = TwistrcAbsent →
  twistrc_js host libraryPath = ModuleAbsent →
  load host mergeConfig libraryName options s
  = (with_console_warn (λ w, w ++ [missing_twistrc_warning libraryName])
       (push_library libraryInfo s), Ok tt).
Proof.
  intros libraryInfo Hp Hne Hfresh Hm Hconflict Hrc Hjs.
  rewrite (load_of_new_library _ _ _ _ _ _ Hp Hne Hfresh Hm Hconflict).
  unfold loadConfigFile. run. rewrite Hrc, Hjs. simpl.
  by destruct s as [? ? ? ? ? ? []].
Qed.

(** X15. A decorator that a library's [.twistrc] lists by name alone is
    registered with the library's package name as its module and its own
    name as its export. *)
Theorem bare_decorator_of_a_loaded_library
  depth libraryName options libraryPath manifest decorator s :
  let libraryInfo :=
    library_record libraryPath options manifest (currentLibrary (_libraryLoader s)) in
  resolveRoot host (js_to_string libraryName) = Some libraryPath →
  libraryPath ≠ ""%string →
  find (same_load libraryPath (default_options options))
       (libraryInfos (_libraryLoader s)) = None →
  packageJson host libraryPath = Some manifest →
  find (conflicts_with libraryInfo) (libraryInfos (_libraryLoader s) ++ [libraryInfo]) = None →
  twistrc host libraryPath
  = TwistrcJson (VObj [("decorators"%string, VArr [VStr decorator])]) →
  decorator ≠ ""%string →
  ∃ s', load host (mergeConfig host (S depth)) libraryName options s = (s', Ok tt)
        ∧ _decorators s' !! decorator
          = Some (VObj [("module"%string, of_name (pkg_name manifest));
                        ("export"%string, VStr decorator)])
        ∧ currentLibrary (_libraryLoader s') = currentLibrary (_libraryLoader s)
        ∧ libraryInfos (_libraryLoader s') = libraryInfos (_libraryLoader s) ++ [libraryInfo].
Proof.
  intros libraryInfo Hp Hne Hfresh Hm Hconflict Hrc Hd.
  rewrite (load_of_new_library _ _ _ _ _ _ Hp Hne Hfresh Hm Hconflict).
  rewrite (loadConfigFile_json _ libraryPath _
             (enter_library libraryInfo (push_library libraryInfo s)) eq_refl Hrc).
  cbn -[mergeConfig].
  rewrite mergeConfig_decorators_bare by done.
  rewrite merge_decorator_object. simpl.
  eexists. split; [reflexivity|]. simpl. by rewrite lookup_insert_eq.
Qed.



(** X18. Where the document of a library comes from: a [.twistrc] is used
    whatever [.twistrc.js] holds, an unreadable [.twistrc] fails the load
    with the library left current, and a function exported by [.twistrc.js]
    is called with the options of the load, defaulted only when they are
    [undefined]: what it returns is merged while the library is current, and
    what it throws fails the load with the library left current and nothing
    merged. *)
Theorem configuration_source mergeConfig libraryName options libraryPath manifest s :
  let libraryInfo :=
    library_record libraryPath options manifest (currentLibrary (_libraryLoader s)) in
  let entered := enter_library libraryInfo (push_library libraryInfo s) in
  resolveRoot host (js_to_string libraryName) = Some libraryPath →
  libraryPath ≠ ""%string →
  find (same_load libraryPath (default_options options))
       (libraryInfos (_libraryLoader s)) = None →
  packageJson host libraryPath = Some manifest →
  find (conflicts_with libraryInfo) (libraryInfos (_libraryLoader s) ++ [libraryInfo]) = None →
  (∀ document,
     twistrc host libraryPath = TwistrcJson document →
     truthy document = true →
     load host mergeConfig libraryName options s
     = leave_after (currentLibrary (_libraryLoader s)) (mergeConfig document entered))
  ∧ (twistrc host libraryPath = TwistrcInvalid →
     ∃ message, load host mergeConfig libraryName options s
                = (entered, Throw (ConfigParseError message)))
  ∧ (∀ library document,
       twistrc host libraryPath = TwistrcAbsent →
       twistrc_js host libraryPath = ModuleFunction library →
       library (default_options options) = Ok document →
       truthy document = true →
       load host mergeConfig libraryName options s
       = leave_after (currentLibrary (_libraryLoader s)) (mergeConfig document entered))
  ∧ (∀ library e,
       twistrc host libraryPath = TwistrcAbsent →
       twistrc_js host libraryPath = ModuleFunction library →
       library (default_options options) = Throw e →
       load host mergeConfig libraryName options s = (entered, Throw e)).
Proof.
  intros libraryInfo entered Hp Hne Hfresh Hm Hconflict.
  rewrite (load_of_new_library _ _ _ _ _ _ Hp Hne Hfresh Hm Hconflict).
  fold libraryInfo. fold entered.
  assert (lib_path (currentLibrary (_libraryLoader entered)) = Some libraryPath) as Hdir
    by done.
  split; [|split; [|split]].
  - intros document Hrc Htruthy.
    rewrite (loadConfigFile_json _ libraryPath document entered Hdir Hrc).
    simpl. by rewrite Htruthy.
  - intros Hrc. unfold loadConfigFile. run. rewrite Hrc. simpl. by eexists.
  - intros library document Hrc Hjs Hcall Htruthy.
    unfold loadConfigFile. run. rewrite Hrc, Hjs, Hcall. simpl. by rewrite Htruthy.
  - intros library e Hrc Hjs Hcall.
    unfold loadConfigFile. run. by rewrite Hrc, Hjs, Hcall.
Qed.

End NewLibrary.

Section Cycle.

Variable host : Host.

(** X17. Two libraries whose documents list each other load once each: the
    inner reference back to the first finds it in the registry and returns,
    so the load ends after two merges. *)
Theorem mutually_referencing_libraries_load_once depth a b pa pb ma mb s :
  let record_a := library_record pa VUndef ma (currentLibrary (_libraryLoader s)) in
  let record_b := library_record pb (VObj []) mb record_a in
  a ≠ ""%string → b ≠ ""%string →
  resolveRoot host a = Some pa → resolveRoot host b = Some pb →
  pa ≠ ""%string → pb ≠ ""%string → pa ≠ pb →
  packageJson host pa = Some ma → packageJson host pb = Some mb →
  pkg_name ma ≠ pkg_name mb →
  twistrc host pa = TwistrcJson (VObj [("libraries"%string, VArr [VStr b])]) →
  twistrc host pb = TwistrcJson (VObj [("libraries"%string, VArr [VStr a])]) →
  libraryInfos (_libraryLoader s) = [] →
  ∃ s', load host (mergeConfig host (S (S depth))) (VStr a) VUndef s = (s', Ok tt)
        ∧ libraryInfos (_libraryLoader s') = [record_a; record_b]
        ∧ currentLibrary (_libraryLoader s') = currentLibrary (_libraryLoader s)
        ∧ mergeConfig_callCount s' = S (S (mergeConfig_callCount s)).
Proof.
  intros record_a record_b Ha Hb Hpa Hpb Hnea Hneb Hne Hma Hmb Hnames Hrca Hrcb Hempty.
  rewrite (load_of_new_library host _ (VStr a) VUndef pa ma s Hpa Hnea);
    [|by rewrite Hempty|done|rewrite Hempty; simpl; by rewrite conflicts_with_self].
  fold record_a.
  rewrite (loadConfigFile_json host _ pa _
             (enter_library record_a (push_library record_a s)) eq_refl Hrca).
  cbn -[mergeConfig].
  enter_mergeConfig. rewrite (proj2 (String.eqb_neq _ _) Hb). evaluate.
  unfold addLibrary.
  set (inside_a := with_callCount S (enter_library record_a (push_library record_a s))).
  assert (libraryInfos (_libraryLoader inside_a) = [record_a]) as Hreg_a
    by (simpl; by rewrite Hempty).
  rewrite (load_of_new_library host _ (VStr b) (VObj []) pb mb inside_a Hpb Hneb); [|..|done|].
  2:{ rewrite Hreg_a. simpl. unfold same_load. simpl.
      rewrite bool_decide_eq_false_2; [done|congruence]. }
  2:{ rewrite Hreg_a. simpl. unfold conflicts_with at 1. simpl.
      rewrite (bool_decide_eq_false_2 (pkg_name ma = pkg_name mb)) by done. simpl.
      by rewrite conflicts_with_self. }
  change (library_record pb (VObj []) mb (currentLibrary (_libraryLoader inside_a)))
    with record_b.
  rewrite (loadConfigFile_json host _ pb _
             (enter_library record_b (push_library record_b inside_a)) eq_refl Hrcb).
  cbn -[mergeConfig].
  enter_mergeConfig. rewrite (proj2 (String.eqb_neq _ _) Ha). evaluate.
  unfold addLibrary. rewrite load_unfold. unfold getRootDir. simpl js_to_string.
  rewrite Hpa. simpl. rewrite Hempty. simpl.
  unfold same_load at 1. simpl. rewrite !bool_decide_eq_true_2 by done. simpl.
  eexists. split; [reflexivity|]. simpl. by rewrite Hempty.
Qed.

End Cycle.

(** ** Failures before the registry is touched *)

(** X19. A library that cannot be resolved, and a new library whose
    [package.json] does not parse, fail the load before anything is
    registered: the instance is left exactly as it was. *)
Theorem load_fails_before_registering host mergeConfig libraryName options s :
  (resolveRoot host (js_to_string libraryName) = None →
   load host mergeConfig libraryName options s
   = (s, Throw (ResolutionError
                  ("Failed to resolve " +:+ js_to_string libraryName
                     +:+ " - is it installed?"))))
  ∧ (∀ libraryPath,
       resolveRoot host (js_to_string libraryName) = Some libraryPath →
       libraryPath ≠ ""%string →
       find (same_load libraryPath (default_options options))
            (libraryInfos (_libraryLoader s)) = None →
       packageJson host libraryPath = None →
       load host mergeConfig libraryName options s = (s, Throw ManifestParseError)).
Proof.
  split.
  - intros Hp. rewrite load_unfold. unfold getRootDir. by rewrite Hp.
  - intros libraryPath Hp Hne Hfresh Hm. rewrite load_unfold. unfold getRootDir.
    rewrite Hp, Hfresh. unfold newLibraryInfo.
    by rewrite (proj2 (String.eqb_neq _ _) Hne), Hm.
Qed.

(** * The properties at the sample hosts *)

Lemma after_conflict_reachable : reachable sampleHost after_conflict.
Proof.
  apply (reachable_addLibrary sampleHost after_A1 2 (VStr "/libs/A2") VUndef).
  apply (reachable_addLibrary sampleHost idle 2 (VStr "/libs/A1") VUndef).
  apply (reachable_new sampleHost 0 (Some "node"%string) [("root"%string, VNull)]).
Qed.

Lemma registry_has_no_repeated_load_witness : no_repeated_load after_conflict.
Proof.
  apply (registry_has_no_repeated_load sampleHost after_conflict).
  exact after_conflict_reachable.
Defined.

Lemma plugin_list_has_no_repeated_plugin_witness :
  _babelPlugins after_plugins
  = [(VStr "plugin1", VObj []); (VStr "plugin2", VObj [("option"%string, VBool true)])]
  ∧ distinct_plugins after_plugins.
Proof.
  split; [vm_compute; reflexivity|].
  apply (plugin_list_has_no_repeated_plugin sampleHost after_plugins).
  apply (reachable_addBabelPlugin sampleHost
           (mergeConfig sampleHost 2 testLibrary3_document idle).1).
  apply (reachable_mergeConfig sampleHost idle 2 testLibrary3_document).
  apply (reachable_new sampleHost 0 (Some "node"%string) [("root"%string, VNull)]).
Defined.

Lemma successful_loads_keep_one_version_per_name_witness :
  (length (libraryInfos (_libraryLoader
             (constructor sampleHost 3 (Some "node"%string)
                [("root"%string, VStr "/app")]).1)) = 2
   ∧ one_version_per_name
       (constructor sampleHost 3 (Some "node"%string) [("root"%string, VStr "/app")]).1)
  ∧ (lib_name <$> libraryInfos (_libraryLoader after_A1_twice)
     = [Some "A"%string; Some "A"%string]
     ∧ one_version_per_name after_A1_twice)
  ∧ (length (libraryInfos (_libraryLoader
               (mergeConfig sampleHost 2 (VObj [("libraries"%string, VArr [VStr "/libs/L"])])
                  after_A1_twice).1)) = 3
     ∧ one_version_per_name
         (mergeConfig sampleHost 2 (VObj [("libraries"%string, VArr [VStr "/libs/L"])])
            after_A1_twice).1).
Proof.
  destruct (successful_loads_keep_one_version_per_name sampleHost) as (Hnew & Hadd & Hmerge).
  assert (one_version_per_name idle) as Hidle.
  { apply (Hnew 0 (Some "node"%string) [("root"%string, VNull)]). vm_compute. reflexivity. }
  assert (one_version_per_name after_A1) as HA1.
  { apply (Hadd 2 (VStr "/libs/A1") VUndef idle after_A1); [exact Hidle|].
    vm_compute. reflexivity. }
  assert (one_version_per_name after_A1_twice) as Htwice.
  { apply (Hadd 2 (VStr "/libs/A1") (VObj [("verbose"%string, VBool true)])
             after_A1 after_A1_twice); [exact HA1|].
    vm_compute. reflexivity. }
  split; [|split].
  - split; [vm_compute; reflexivity|].
    apply (Hnew 3 (Some "node"%string) [("root"%string, VStr "/app")]).
    vm_compute. reflexivity.
  - split; [vm_compute; reflexivity|exact Htwice].
  - split; [vm_compute; reflexivity|].
    apply (Hmerge 2 (VObj [("libraries"%string, VArr [VStr "/libs/L"])]) after_A1_twice
             (mergeConfig sampleHost 2 (VObj [("libraries"%string, VArr [VStr "/libs/L"])])
                after_A1_twice).1); [exact Htwice|].
    vm_compute. reflexivity.
Defined.

Lemma currentLibrary_is_the_sentinel_between_loads_witness :
  currentLibrary (_libraryLoader
                    (constructor sampleHost 3 (Some "node"%string)
                       [("root"%string, VStr "/app")]).1) = rootLibrary
  ∧ currentLibrary (_libraryLoader (mergeConfig sampleHost 2 (override_document "/libs/L" "x" D2)
                                      after_A1).1)
    = currentLibrary (_libraryLoader after_A1).
Proof.
  destruct (currentLibrary_is_the_sentinel_between_loads sampleHost) as (Hnew & Hmerge).
  split.
  - apply (Hnew 3 (Some "node"%string) [("root"%string, VStr "/app")]).
    vm_compute. reflexivity.
  - apply (Hmerge 2 (override_document "/libs/L" "x" D2) after_A1). vm_compute. reflexivity.
Defined.

Lemma twistOptions_entries_witness :
  twistOptions after_A1 !! "polyfill"%string = PlainOption <$> _options after_A1 !! "polyfill"%string.
Proof.
  destruct (twistOptions_entries after_A1) as (aliases & autoImport & _ & _ & _ & _ & _ & Hplain).
  apply (Hplain "polyfill"%string).
  intros H. repeat (apply elem_of_cons in H as [H|H]; [discriminate H|]).
  by apply elem_of_nil in H.
Defined.

Lemma options_section_then_getOption_witness :
  ∃ s', mergeConfig sampleHost 1
          (VObj [("options"%string,
                  VObj [("regenerator"%string, VBool true); ("polyfill"%string, VNum 42)])])
          idle = (s', Ok tt)
        ∧ (∀ k v, (k, v) ∈ [("regenerator"%string, VBool true); ("polyfill"%string, VNum 42)] →
                  getOption (VStr k) s' = (s', Ok v))
        ∧ (∀ name,
             js_to_string name
               ∉ [("regenerator"%string, VBool true); ("polyfill"%string, VNum 42)].*1 →
             getOption name s' = (s', (getOption name idle).2)).
Proof.
  apply (options_section_then_getOption sampleHost 0
           [("regenerator"%string, VBool true); ("polyfill"%string, VNum 42)] idle).
  - vm_compute. reflexivity.
  - apply (bool_decide_unpack _). vm_compute. exact I.
  - intros k Hk. simpl in Hk.
    apply elem_of_cons in Hk as [->|Hk]; [exists (VBool false); vm_compute; reflexivity|].
    apply elem_of_cons in Hk as [->|Hk]; [exists (VBool true); vm_compute; reflexivity|].
    by apply elem_of_nil in Hk.
Defined.

Lemma mapping_form_is_sequence_form_witness :
  _forEachConfig (VObj [("regenerator"%string, VBool true); ("polyfill"%string, VNum 42)])
    setOption idle
  = _forEachConfig
      (VArr (map as_pair [("regenerator"%string, VBool true); ("polyfill"%string, VNum 42)]))
      setOption idle.
Proof.
  apply (mapping_form_is_sequence_form
           [("regenerator"%string, VBool true); ("polyfill"%string, VNum 42)] setOption idle).
  - apply (bool_decide_unpack _). vm_compute. exact I.
  - intros k v H.
    apply elem_of_cons in H as [H|H]; [by inversion H|].
    apply elem_of_cons in H as [H|H]; [by inversion H|].
    by apply elem_of_nil in H.
Defined.

Lemma falsy_value_in_sequence_form_witness :
  (∃ s', mergeConfig sampleHost 1
           (VObj [("options"%string, VArr [VArr [VStr "regenerator"; VBool false]])]) idle
         = (s', Ok tt)
         ∧ getOption (VStr "regenerator") s' = (s', Ok (VObj [])))
  ∧ (∃ s', mergeConfig sampleHost 1
             (VObj [("options"%string, VObj [("regenerator"%string, VBool false)])]) idle
           = (s', Ok tt)
           ∧ getOption (VStr "regenerator") s' = (s', Ok (VBool false))).
Proof.
  apply (falsy_value_in_sequence_form sampleHost 0 "regenerator" (VBool false) idle).
  - vm_compute. reflexivity.
  - exists (VBool false). vm_compute. reflexivity.
  - reflexivity.
Defined.

Lemma mergeConfig_of_an_empty_document_witness :
  mergeConfig sampleHost 1 (VObj [("name"%string, VStr "app")]) idle
  = (with_callCount S idle, Ok tt)
  ∧ mergeConfig sampleHost 1 VUndef idle = (with_callCount S idle, Ok tt).
Proof.
  destruct (mergeConfig_of_an_empty_document sampleHost 0 idle) as [Hnothing _].
  split.
  - apply (Hnothing (VObj [("name"%string, VStr "app")])).
    intros k Hk. unfold document_keys in Hk.
    repeat (apply elem_of_cons in Hk as [->|Hk]; [reflexivity|]).
    by apply elem_of_nil in Hk.
  - apply (Hnothing VUndef). exact I.
Defined.



Lemma library_without_configuration_witness :
  load sampleHost (mergeConfig sampleHost 2) (VStr "/libs/bare") VUndef idle
  = (with_console_warn (λ w, w ++ [missing_twistrc_warning (VStr "/libs/bare")])
       (push_library
          (library_record "/libs/bare" VUndef
             {| pkg_name := Some "bare"%string; pkg_version := Some "1.0.0"%string |}
             (currentLibrary (_libraryLoader idle))) idle), Ok tt).
Proof.
  apply (library_without_configuration sampleHost (mergeConfig sampleHost 2)
           (VStr "/libs/bare") VUndef "/libs/bare"
           {| pkg_name := Some "bare"%string; pkg_version := Some "1.0.0"%string |} idle).
  - vm_compute. reflexivity.
  - discriminate.
  - vm_compute. reflexivity.
  - vm_compute. reflexivity.
  - vm_compute. reflexivity.
  - vm_compute. reflexivity.
  - vm_compute. reflexivity.
Defined.

Lemma bare_decorator_of_a_loaded_library_witness :
  ∃ s', load sampleHost (mergeConfig sampleHost 1) (VStr "@x/y") VUndef idle = (s', Ok tt)
        ∧ _decorators s' !! "Store"%string
          = Some (VObj [("module"%string, VStr "@x/y"); ("export"%string, VStr "Store")])
        ∧ currentLibrary (_libraryLoader s') = currentLibrary (_libraryLoader idle)
        ∧ libraryInfos (_libraryLoader s')
          = libraryInfos (_libraryLoader idle)
              ++ [library_record "/node_modules/@x/y" VUndef
                    {| pkg_name := Some "@x/y"%string; pkg_version := Some "3.1.4"%string |}
                    (currentLibrary (_libraryLoader idle))].
Proof.
  apply (bare_decorator_of_a_loaded_library sampleHost 0 (VStr "@x/y") VUndef
           "/node_modules/@x/y"
           {| pkg_name := Some "@x/y"%string; pkg_version := Some "3.1.4"%string |}
           "Store" idle).
  - vm_compute. reflexivity.
  - discriminate.
  - vm_compute. reflexivity.
  - vm_compute. reflexivity.
  - vm_compute. reflexivity.
  - vm_compute. reflexivity.
  - discriminate.
Defined.


Lemma configuration_source_witness :
  load secondHost (mergeConfig secondHost 1) (VStr "/test/testLibrary2") injected_options idle
  = leave_after (currentLibrary (_libraryLoader idle))
      (mergeConfig secondHost 1
         (VObj [("decorators"%string,
                 VArr [VArr [VStr "Store";
                             VObj [("module"%string, VStr "@twist/core");
                                   ("export"%string, VStr "Store");
                                   ("inherits"%string,
                                    VObj [("module"%string, VStr "@twist/core");
                                          ("export"%string, VStr "BaseStore")])]]]);
                ("components"%string,
                 VArr [VArr [VStr "injected:componentname";
                             VObj [("module"%string, VStr "@twist/core");
                                   ("export"%string, VStr "MyComponent")]]])])
         (enter_library
            (library_record "/test/testLibrary2" injected_options
               {| pkg_name := Some "test-library2"%string; pkg_version := Some "1.0.0"%string |}
               (currentLibrary (_libraryLoader idle)))
            (push_library
               (library_record "/test/testLibrary2" injected_options
                  {| pkg_name := Some "test-library2"%string;
                     pkg_version := Some "1.0.0"%string |}
                  (currentLibrary (_libraryLoader idle))) idle)))
  ∧ load secondHost (mergeConfig secondHost 1) (VStr "/test/testLibrary2") VNull idle
    = (enter_library
         (library_record "/test/testLibrary2" VNull
            {| pkg_name := Some "test-library2"%string; pkg_version := Some "1.0.0"%string |}
            (currentLibrary (_libraryLoader idle)))
         (push_library
            (library_record "/test/testLibrary2" VNull
               {| pkg_name := Some "test-library2"%string;
                  pkg_version := Some "1.0.0"%string |}
               (currentLibrary (_libraryLoader idle))) idle),
       Throw TypeError).
Proof.
  split.
  - refine (proj1 (proj2 (proj2
              (configuration_source secondHost (mergeConfig secondHost 1)
                 (VStr "/test/testLibrary2") injected_options "/test/testLibrary2"
                 {| pkg_name := Some "test-library2"%string;
                    pkg_version := Some "1.0.0"%string |}
                 idle _ _ _ _ _))) testLibrary2_module _ _ _ _ _);
      try (vm_compute; reflexivity); discriminate.
  - refine (proj2 (proj2 (proj2
              (configuration_source secondHost (mergeConfig secondHost 1)
                 (VStr "/test/testLibrary2") VNull "/test/testLibrary2"
                 {| pkg_name := Some "test-library2"%string;
                    pkg_version := Some "1.0.0"%string |}
                 idle _ _ _ _ _))) testLibrary2_module TypeError _ _ _);
      try (vm_compute; reflexivity); discriminate.
Defined.

Lemma mutually_referencing_libraries_load_once_witness :
  ∃ s', load secondHost (mergeConfig secondHost 2) (VStr "/cycle/a") VUndef idle = (s', Ok tt)
        ∧ libraryInfos (_libraryLoader s')
          = [library_record "/cycle/a" VUndef
               {| pkg_name := Some "a"%string; pkg_version := Some "1.0.0"%string |}
               (currentLibrary (_libraryLoader idle));
             library_record "/cycle/b" (VObj [])
               {| pkg_name := Some "b"%string; pkg_version := Some "1.0.0"%string |}
               (library_record "/cycle/a" VUndef
                  {| pkg_name := Some "a"%string; pkg_version := Some "1.0.0"%string |}
                  (currentLibrary (_libraryLoader idle)))]
        ∧ currentLibrary (_libraryLoader s') = currentLibrary (_libraryLoader idle)
        ∧ mergeConfig_callCount s' = S (S (mergeConfig_callCount idle)).
Proof.
  apply (mutually_referencing_libraries_load_once secondHost 0 "/cycle/a" "/cycle/b"
           "/cycle/a" "/cycle/b"
           {| pkg_name := Some "a"%string; pkg_version := Some "1.0.0"%string |}
           {| pkg_name := Some "b"%string; pkg_version := Some "1.0.0"%string |} idle).
  - discriminate.
  - discriminate.
  - vm_compute. reflexivity.
  - vm_compute. reflexivity.
  - discriminate.
  - discriminate.
  - discriminate.
  - vm_compute. reflexivity.
  - vm_compute. reflexivity.
  - discriminate.
  - vm_compute. reflexivity.
  - vm_compute. reflexivity.
  - vm_compute. reflexivity.
Defined.

(** The second test library, loaded with the options of the repository's
    loader test, hands [mergeConfig] the document that test expects, and
    the configuration ends with its component under the injected name. *)
Example testLibrary2_with_injected_options :
  testLibrary2_module injected_options
  = Ok (VObj [("decorators"%string,
               VArr [VArr [VStr "Store";
                           VObj [("module"%string, VStr "@twist/core");
                                 ("export"%string, VStr "Store");
                                 ("inherits"%string,
                                  VObj [("module"%string, VStr "@twist/core");
                                        ("export"%string, VStr "BaseStore")])]]]);
              ("components"%string,
               VArr [VArr [VStr "injected:componentname";
                           VObj [("module"%string, VStr "@twist/core");
                                 ("export"%string, VStr "MyComponent")]]])])
  ∧ _components
      (load secondHost (mergeConfig secondHost 1) (VStr "/test/testLibrary2")
         injected_options idle).1 !! "injected:componentname"%string
    = Some (VObj [("module"%string, VStr "@twist/core");
                  ("export"%string, VStr "MyComponent")])
  ∧ testLibrary2_module VNull = Throw TypeError.
Proof. repeat split; vm_compute; reflexivity. Qed.

Lemma load_fails_before_registering_witness :
  load sampleHost (mergeConfig sampleHost 2) (VStr "not-a-library") VUndef after_A1
  = (after_A1, Throw (ResolutionError "Failed to resolve not-a-library - is it installed?"))
  ∧ load secondHost (mergeConfig secondHost 2) (VStr "broken") VUndef after_A1
    = (after_A1, Throw ManifestParseError).
Proof.
  split.
  - apply (proj1 (load_fails_before_registering sampleHost (mergeConfig sampleHost 2)
                    (VStr "not-a-library") VUndef after_A1)).
    vm_compute. reflexivity.
  - apply (proj2 (load_fails_before_registering secondHost (mergeConfig secondHost 2)
                    (VStr "broken") VUndef after_A1) "/libs/broken"%string).
    + vm_compute. reflexivity.
    + discriminate.
    + vm_compute. reflexivity.
    + vm_compute. reflexivity.
Defined.
